(** * GLSP server: diagram configuration and model submission

    A shallow embedding of two classes of the GLSP node server,

    - [WorkflowDiagramConfiguration] (workflow example server), the
      configuration data of the workflow diagram, and
    - [ModelSubmissionHandler]
      (packages/server/src/common/features/model/model-submission-handler.ts),
      which turns the model state into a list of client-bound actions,

    followed by the properties of both that the specification states. *)

From Stdlib Require Import ZArith List Bool Lia PeanoNat Floats.
From stdpp Require Import base option list strings gmap.

Local Open Scope string_scope.
Local Open Scope list_scope.

(** ** Objects and references

    The getters of the configuration build JavaScript objects (a [Map], arrays
    of hint objects).  Whether two accesses give the same object is a question
    about references, so the objects live in a store and a getter returns a
    reference into it. *)

(** The element classes a type identifier is mapped to.  [GLabel],
    [GCompartment], [GEdge] come from the graph package, [ActivityNode],
    [TaskNode], [Category] from the workflow graph extension; [GClass]
    stands for any other class the default mapping may hold. *)
Inductive GModelElementConstructor : Type :=
| GLabel
| GCompartment
| GEdge
| ActivityNode
| TaskNode
| Category
| GClass (name : string).

(** [ShapeTypeHint]: [containableElementTypeIds] is an optional member. *)
Record ShapeTypeHint : Type := mkShapeTypeHint {
  shape_elementTypeId : string;
  shape_repositionable : bool;
  shape_deletable : bool;
  resizable : bool;
  reparentable : bool;
  containableElementTypeIds : option (list string)
}.

Record EdgeTypeHint : Type := mkEdgeTypeHint {
  edge_elementTypeId : string;
  edge_repositionable : bool;
  edge_deletable : bool;
  routable : bool;
  sourceElementTypeIds : list string;
  targetElementTypeIds : list string
}.

Module Store.

Inductive Obj : Type :=
| MapObj (entries : gmap string GModelElementConstructor)
| ShapeHintArray (items : list ShapeTypeHint)
| EdgeHintArray (items : list EdgeTypeHint).

Abbreviation Ref := nat.

(** The store is the list of the objects allocated so far; a reference is
    the position of its object. *)
Abbreviation Heap := (list Obj).

Definition empty : Heap := [].

(** Evaluating an object literal or [new Map()]: a new object, at a
    reference no earlier object has. *)
Definition alloc (o : Obj) (h : Heap) : Ref * Heap := (length h, h ++ [o]).

Definition deref (h : Heap) (r : Ref) : option Obj := h !! r.

(** [Map.prototype.set(key, value)] on the object behind [r]: the entry is
    added or overwritten in place, every other entry is kept. *)
Definition set_entry (key : string) (value : GModelElementConstructor) (o : Obj) : Obj :=
  match o with
  | MapObj m => MapObj (<[key := value]> m)
  | other => other
  end.

Definition map_set (r : Ref) (key : string) (value : GModelElementConstructor)
    (h : Heap) : Heap :=
  alter (set_entry key value) r h.

(** [Map.prototype.has(key)] on the object behind [r]. *)
Definition map_has (h : Heap) (r : Ref) (key : string) : bool :=
  match deref h r with
  | Some (MapObj m) => bool_decide (is_Some (m !! key))
  | _ => false
  end.

(** [Map.prototype.get(key)] on the object behind [r]; [None] is
    [undefined]. *)
Definition map_get (h : Heap) (r : Ref) (key : string) : option GModelElementConstructor :=
  match deref h r with
  | Some (MapObj m) => m !! key
  | _ => None
  end.

End Store.

(** ** The type identifiers

    [ModelTypes] (util/model-types) and [DefaultTypes.EDGE] (protocol package)
    are string constants declared outside the two files at hand: the
    configuration is modelled for any binding of them. *)
Module ModelTypes.
Record t : Type := mk {
  LABEL_HEADING : string;
  LABEL_TEXT : string;
  COMP_HEADER : string;
  LABEL_ICON : string;
  WEIGHTED_EDGE : string;
  ICON : string;
  ACTIVITY_NODE : string;
  TASK : string;
  CATEGORY : string;
  STRUCTURE : string;
  MANUAL_TASK : string;
  AUTOMATED_TASK : string;
  FORK_NODE : string;
  JOIN_NODE : string;
  DECISION_NODE : string;
  MERGE_NODE : string
}.
End ModelTypes.

(** ** The diagram configuration contract *)

(** The enum [ServerLayoutKind] of the server package.  The two classes name
    its members [AUTOMATIC] and [MANUAL]; [NONE] is the remaining one. *)
Inductive ServerLayoutKind : Type := AUTOMATIC | MANUAL | NONE.

#[global] Instance ServerLayoutKind_eq_dec : EqDecision ServerLayoutKind.
Proof. solve_decision. Defined.

(** The members of [DiagramConfiguration] the two classes use.  The first
    three are getters: each access runs the getter's body against the
    store. *)
Record DiagramConfiguration : Type := mkDiagramConfiguration {
  typeMapping : Store.Heap -> Store.Ref * Store.Heap;
  shapeTypeHints : Store.Heap -> Store.Ref * Store.Heap;
  edgeTypeHints : Store.Heap -> Store.Ref * Store.Heap;
  layoutKind : ServerLayoutKind;
  needsClientLayout : bool;
  animatedUpdate : bool
}.

(** ** WorkflowDiagramConfiguration *)
Module Workflow.
Section Configuration.

Import ModelTypes.

(** The constants and the framework function the class reads. *)
Variable types : ModelTypes.t.
Variable DefaultTypes_EDGE : string.
Variable getDefaultMapping : Store.Heap -> Store.Ref * Store.Heap.

Definition createDefaultShapeTypeHint (elementId : string) : ShapeTypeHint :=
  {| shape_elementTypeId := elementId;
     shape_repositionable := true;
     shape_deletable := true;
     resizable := true;
     reparentable := true;
     containableElementTypeIds := None |}.

Definition createDefaultEdgeTypeHint (elementId : string) : EdgeTypeHint :=
  {| edge_elementTypeId := elementId;
     edge_repositionable := true;
     edge_deletable := true;
     routable := true;
     sourceElementTypeIds :=
       [ MANUAL_TASK types; AUTOMATED_TASK types; DECISION_NODE types;
         MERGE_NODE types; FORK_NODE types; JOIN_NODE types; CATEGORY types ];
     targetElementTypeIds :=
       [ MANUAL_TASK types; AUTOMATED_TASK types; DECISION_NODE types;
         MERGE_NODE types; FORK_NODE types; JOIN_NODE types; CATEGORY types ] |}.

(** [get typeMapping()]: the map [getDefaultMapping()] returns, with ten
    entries set on it, in the order of the source. *)
Definition get_typeMapping (h : Store.Heap) : Store.Ref * Store.Heap :=
  let '(mapping, h) := getDefaultMapping h in
  let h := Store.map_set mapping (LABEL_HEADING types) GLabel h in
  let h := Store.map_set mapping (LABEL_TEXT types) GLabel h in
  let h := Store.map_set mapping (COMP_HEADER types) GCompartment h in
  let h := Store.map_set mapping (LABEL_ICON types) GLabel h in
  let h := Store.map_set mapping (WEIGHTED_EDGE types) GEdge h in
  let h := Store.map_set mapping (ICON types) GCompartment h in
  let h := Store.map_set mapping (ACTIVITY_NODE types) ActivityNode h in
  let h := Store.map_set mapping (TASK types) TaskNode h in
  let h := Store.map_set mapping (CATEGORY types) Category h in
  let h := Store.map_set mapping (STRUCTURE types) GCompartment h in
  (mapping, h).

(** [get shapeTypeHints()]: an array literal, evaluated on every access. *)
Definition get_shapeTypeHints (h : Store.Heap) : Store.Ref * Store.Heap :=
  Store.alloc
    (Store.ShapeHintArray
       [ createDefaultShapeTypeHint (MANUAL_TASK types);
         createDefaultShapeTypeHint (AUTOMATED_TASK types);
         createDefaultShapeTypeHint (FORK_NODE types);
         createDefaultShapeTypeHint (JOIN_NODE types);
         createDefaultShapeTypeHint (DECISION_NODE types);
         createDefaultShapeTypeHint (MERGE_NODE types);
         {| shape_elementTypeId := CATEGORY types;
            shape_repositionable := true;
            shape_deletable := true;
            resizable := true;
            reparentable := true;
            containableElementTypeIds :=
              Some [ DECISION_NODE types; MERGE_NODE types; FORK_NODE types;
                     JOIN_NODE types; AUTOMATED_TASK types; MANUAL_TASK types;
                     CATEGORY types ] |} ])
    h.

(** [get edgeTypeHints()]: likewise an array literal. *)
Definition get_edgeTypeHints (h : Store.Heap) : Store.Ref * Store.Heap :=
  Store.alloc
    (Store.EdgeHintArray
       [ createDefaultEdgeTypeHint DefaultTypes_EDGE;
         {| edge_elementTypeId := WEIGHTED_EDGE types;
            edge_repositionable := true;
            edge_deletable := true;
            routable := true;
            sourceElementTypeIds := [ DECISION_NODE types ];
            targetElementTypeIds :=
              [ MANUAL_TASK types; AUTOMATED_TASK types; FORK_NODE types;
                JOIN_NODE types ] |} ])
    h.

Definition WorkflowDiagramConfiguration : DiagramConfiguration :=
  {| typeMapping := get_typeMapping;
     shapeTypeHints := get_shapeTypeHints;
     edgeTypeHints := get_edgeTypeHints;
     layoutKind := MANUAL;
     needsClientLayout := true;
     animatedUpdate := true |}.

(** The identifiers the ten [mapping.set] calls use. *)
Definition registeredTypeIds : list string :=
  [ LABEL_HEADING types; LABEL_TEXT types; COMP_HEADER types; LABEL_ICON types;
    WEIGHTED_EDGE types; ICON types; ACTIVITY_NODE types; TASK types;
    CATEGORY types; STRUCTURE types ].

End Configuration.
End Workflow.

(** The element type identifiers the hints of a configuration declare, read
    off the arrays the two getters return. *)
Definition hintElementTypeIds (o : Store.Obj) : list string :=
  match o with
  | Store.ShapeHintArray items => map shape_elementTypeId items
  | Store.EdgeHintArray items => map edge_elementTypeId items
  | Store.MapObj _ => []
  end.

Definition declaredElementTypeIds (cfg : DiagramConfiguration) (h : Store.Heap) : list string :=
  let shapes := shapeTypeHints cfg h in
  let edges := edgeTypeHints cfg shapes.2 in
  from_option hintElementTypeIds [] (Store.deref edges.2 shapes.1)
  ++ from_option hintElementTypeIds [] (Store.deref edges.2 edges.1).

(** The array an access to [shapeTypeHints], resp. [edgeTypeHints], returns,
    read from the store the access leaves. *)
Definition shapeHintsOf (cfg : DiagramConfiguration) (h : Store.Heap) : list ShapeTypeHint :=
  match Store.deref (shapeTypeHints cfg h).2 (shapeTypeHints cfg h).1 with
  | Some (Store.ShapeHintArray items) => items
  | _ => []
  end.

Definition edgeHintsOf (cfg : DiagramConfiguration) (h : Store.Heap) : list EdgeTypeHint :=
  match Store.deref (edgeTypeHints cfg h).2 (edgeTypeHints cfg h).1 with
  | Some (Store.EdgeHintArray items) => items
  | _ => []
  end.

(** Two consecutive accesses to a getter give the same object. *)
Definition sameObjectOnEveryAccess (getter : Store.Heap -> Store.Ref * Store.Heap)
    (h : Store.Heap) : Prop :=
  (getter (getter h).2).1 = (getter h).1.

(** The type mapping has a key for every element type the hints declare. *)
Definition everyDeclaredTypeIsMapped (cfg : DiagramConfiguration) (h : Store.Heap) : Prop :=
  forall k : string,
    In k (declaredElementTypeIds cfg (typeMapping cfg h).2) ->
    Store.map_has (typeMapping cfg h).2 (typeMapping cfg h).1 k = true.

(** A binding of the constants, for evaluating the configuration on concrete
    data: pairwise distinct identifiers, a sub-type written as its base type
    followed by a colon and a name, and a default mapping with an entry per
    basic element type. *)
Module WorkflowExample.

Definition types : ModelTypes.t :=
  {| ModelTypes.LABEL_HEADING := "label:heading";
     ModelTypes.LABEL_TEXT := "label:text";
     ModelTypes.COMP_HEADER := "comp:header";
     ModelTypes.LABEL_ICON := "label:icon";
     ModelTypes.WEIGHTED_EDGE := "edge:weighted";
     ModelTypes.ICON := "icon";
     ModelTypes.ACTIVITY_NODE := "activityNode";
     ModelTypes.TASK := "task";
     ModelTypes.CATEGORY := "category";
     ModelTypes.STRUCTURE := "struct";
     ModelTypes.MANUAL_TASK := "task:manual";
     ModelTypes.AUTOMATED_TASK := "task:automated";
     ModelTypes.FORK_NODE := "activityNode:fork";
     ModelTypes.JOIN_NODE := "activityNode:join";
     ModelTypes.DECISION_NODE := "activityNode:decision";
     ModelTypes.MERGE_NODE := "activityNode:merge" |}.

Definition DefaultTypes_EDGE : string := "edge".

Definition defaultMapping : gmap string GModelElementConstructor :=
  list_to_map
    [ ("graph", GClass "GGraph"); ("node", GClass "GNode"); ("edge", GEdge);
      ("port", GClass "GPort"); ("label", GLabel); ("comp", GCompartment) ].

(** A [getDefaultMapping] that builds a new map on every call. *)
Definition getDefaultMapping (h : Store.Heap) : Store.Ref * Store.Heap :=
  Store.alloc (Store.MapObj defaultMapping) h.

Definition configuration : DiagramConfiguration :=
  Workflow.WorkflowDiagramConfiguration types DefaultTypes_EDGE getDefaultMapping.

(** A [getDefaultMapping] that hands out the object at reference 0 on every
    call, and a store that holds a map there. *)
Definition sharedDefaultMapping (h : Store.Heap) : Store.Ref * Store.Heap := (0, h).

Definition storeWithSharedMap : Store.Heap := [Store.MapObj defaultMapping].

End WorkflowExample.

(** ** JavaScript numbers

    A TypeScript [number] is an IEEE 754 binary64 value: it is modelled by
    Rocq's primitive [float], with [+] on numbers as [PrimFloat.add] and
    [===] between numbers as [PrimFloat.eqb] (so [0 === -0] holds and
    [NaN === NaN] does not). *)

(** The double nearest to an integer, to speak of integer-valued numbers. *)
Definition numberOfZ (n : Z) : float :=
  SF2Prim (binary_normalize prec emax n 0 false).

(** [after] is [before] plus one: their difference, which binary64
    subtraction gives exactly for neighbouring values, is 1. *)
Definition incrementedByOne (before after : float) : Prop :=
  PrimFloat.eqb (PrimFloat.sub after before) PrimFloat.one = true.

(** ** ModelSubmissionHandler *)

(** [DirtyStateChangeReason] is a union of string literals in the protocol
    package; [MarkersReason] has the two members [BATCH] and [LIVE]. *)
Definition DirtyStateChangeReason : Type := string.

Inductive MarkersReason : Type := BATCH | LIVE.

Inductive ActionKind : Type :=
| RequestBoundsKind
| SetDirtyStateKind
| SetModelKind
| UpdateModelKind
| SetMarkersKind.

#[global] Instance ActionKind_eq_dec : EqDecision ActionKind.
Proof. solve_decision. Defined.

Module Submission.
Section Handler.

(** What the framework owns and the handler only passes along: the
    content of the model root besides its revision, the other members of
    the model state, the state of the injected services, the body of a
    serialized root, validation markers, and thrown values. *)
Context {Elements Others Services SchemaBody Marker Exn : Type}.

(** [GModelRoot]: [revision?: number] is an optional member, [None] when
    it is [undefined]. *)
Record GModelRoot : Type := mkRoot {
  revision : option float;
  elements : Elements
}.

(** [GModelRootSchema], the serialized root; it has a [revision] too. *)
Record GModelRootSchema : Type := mkSchema {
  schema_revision : option float;
  schema_body : SchemaBody
}.

Record ModelState : Type := mkModelState {
  root : GModelRoot;
  others : Others
}.

(** Everything a call of the handler can read or change. *)
Record World : Type := mkWorld {
  modelState : ModelState;
  services : Services
}.

(** The actions the handler creates; a constructor is the [create]
    function of the action's namespace with the arguments the handler
    passes. *)
Inductive Action : Type :=
| RequestBoundsAction (newRoot : GModelRootSchema)
| SetDirtyStateAction (isDirty : bool) (reason : option DirtyStateChangeReason)
| SetModelAction (newRoot : GModelRootSchema)
| UpdateModelAction (newRoot : GModelRootSchema) (animate : bool)
| SetMarkersAction (markers : list Marker) (reason : MarkersReason).

Definition kind (a : Action) : ActionKind :=
  match a with
  | RequestBoundsAction _ => RequestBoundsKind
  | SetDirtyStateAction _ _ => SetDirtyStateKind
  | SetModelAction _ => SetModelKind
  | UpdateModelAction _ _ => UpdateModelKind
  | SetMarkersAction _ _ => SetMarkersKind
  end.

(** *** Calls into the framework

    A call either returns a value or throws (for an awaited call: the
    promise is fulfilled or rejected); either way it may have changed the
    world. *)
Inductive Completion (A : Type) : Type :=
| Return (a : A)
| Throw (e : Exn).
Arguments Return {A} a.
Arguments Throw {A} e.

Definition Effect (A : Type) : Type := World -> World * Completion A.

(** One entry per call into the framework: the service member called,
    its arguments, and how the call completed.  [dispatch_ev] is a call of
    [ActionDispatcher.dispatch]. *)
Inductive Event : Type :=
| createModel_ev (r : Completion unit)
| createSchema_ev (gRoot : GModelRoot) (r : Completion GModelRootSchema)
| isDirty_ev (r : Completion bool)
| layout_ev (r : Completion unit)
| validate_ev (elems : list GModelRoot) (reason : MarkersReason)
    (r : Completion (list Marker))
| dispatch_ev (a : Action) (r : Completion unit).

Definition thrown {A} (r : Completion A) : option Exn :=
  match r with
  | Return _ => None
  | Throw e => Some e
  end.

(** The value a call threw, if it did. *)
Definition raised (ev : Event) : option Exn :=
  match ev with
  | createModel_ev r => thrown r
  | createSchema_ev _ r => thrown r
  | isDirty_ev r => thrown r
  | layout_ev r => thrown r
  | validate_ev _ _ r => thrown r
  | dispatch_ev _ r => thrown r
  end.

(** *** The monad of a method body

    A method body runs from a world to the calls it made ([trace]), those
    of them it made as the operand of an [await] ([awaits]), the world it
    left and its completion.  There is no handler for [Throw] because the
    class has no [try]: a thrown value ends the body. *)
Record Outcome (A : Type) : Type := mkOutcome {
  trace : list Event;
  awaits : list Event;
  world : World;
  completion : Completion A
}.
Arguments mkOutcome {A}.
Arguments trace {A}.
Arguments awaits {A}.
Arguments world {A}.
Arguments completion {A}.

Definition M (A : Type) : Type := World -> Outcome A.

Definition ret {A} (a : A) : M A :=
  fun w => mkOutcome [] [] w (Return a).

Definition bind {A B} (m : M A) (k : A -> M B) : M B :=
  fun w =>
    let '(mkOutcome t aw w1 c) := m w in
    match c with
    | Return a =>
        let '(mkOutcome t' aw' w2 c') := k a w1 in
        mkOutcome (t ++ t') (aw ++ aw') w2 c'
    | Throw e => mkOutcome t aw w1 (Throw e)
    end.

(** [service.member(args)]: a call of a service member, entered in the
    trace by [ev]. *)
Definition call {A} (ev : Completion A -> Event) (f : Effect A) : M A :=
  fun w => let '(w', r) := f w in mkOutcome [ev r] [] w' r.

(** [await service.member(args)]: the same call, made as the operand of an
    [await]; the body goes on with the value the promise is fulfilled with,
    or throws what it is rejected with. *)
Definition await {A} (ev : Completion A -> Event) (f : Effect A) : M A :=
  fun w => let '(w', r) := f w in mkOutcome [ev r] [ev r] w' r.

Definition gets {A} (f : World -> A) : M A :=
  fun w => mkOutcome [] [] w (Return (f w)).

Definition modify (f : World -> World) : M unit :=
  fun w => mkOutcome [] [] (f w) (Return tt).

Notation "x <- m ;; k" := (bind m (fun x => k))
  (at level 100, m at next level, right associativity).
Notation "m ;;; k" := (bind m (fun _ => k))
  (at level 100, right associativity).

(** *** The class

    The injected members.  [modelState] is the world's; [layoutEngine] and
    [validator] are optional bindings, [None] when nothing is bound.  A
    service member is called through [call], or through [await] where the
    source awaits the call; reading a property of the
    configuration ([layoutKind], [needsClientLayout], [animatedUpdate]) or
    [modelState.root] is a plain read. *)
Record ModelSubmissionHandler : Type := mkHandler {
  diagramConfiguration : DiagramConfiguration;
  (** [GModelSerializer.createSchema(root)] *)
  serializer : GModelRoot -> Effect GModelRootSchema;
  (** [GModelFactory.createModel()] *)
  modelFactory : Effect unit;
  (** [LayoutEngine.layout()] *)
  layoutEngine : option (Effect unit);
  (** [CommandStack.isDirty] *)
  commandStack : Effect bool;
  (** [ModelValidator.validate(elements, reason)] *)
  validator : option (list GModelRoot -> MarkersReason -> Effect (list Marker))
}.

(** The service member an entry of the trace is a call of. *)
Inductive Member : Type :=
| createModel | createSchema | isDirty | layout | validate | dispatch.

Definition member (ev : Event) : Member :=
  match ev with
  | createModel_ev _ => createModel
  | createSchema_ev _ _ => createSchema
  | isDirty_ev _ => isDirty
  | layout_ev _ => layout
  | validate_ev _ _ _ => validate
  | dispatch_ev _ _ => dispatch
  end.

Section Methods.

Variable this : ModelSubmissionHandler.

(** [this.modelState.root] *)
Definition get_root : M GModelRoot := gets (fun w => root (modelState w)).

(** [this.modelState.root.revision = v] *)
Definition set_revision (v : float) : M unit :=
  modify (fun w =>
    mkWorld
      (mkModelState
         (mkRoot (Some v) (elements (root (modelState w))))
         (others (modelState w)))
      (services w)).

Definition serializeGModel : M GModelRootSchema :=
  r <- get_root ;;
  call (createSchema_ev r) (serializer this r).

(** [a ?? 0] *)
Definition nullish_or_0 (a : option float) : float := default PrimFloat.zero a.

(** [root.revision === 0]: [false] for [undefined], the comparison of
    numbers otherwise. *)
Definition revision_is_0 (s : GModelRootSchema) : bool :=
  match schema_revision s with
  | Some x => PrimFloat.eqb x PrimFloat.zero
  | None => false
  end.

(** [this.modelState.root.revision = (this.modelState.root.revision ?? 0) + 1] *)
Definition incrementRevision : M unit :=
  r <- get_root ;;
  set_revision (PrimFloat.add (nullish_or_0 (revision r)) PrimFloat.one).

Definition submitModel (reason : option DirtyStateChangeReason) : M (list Action) :=
  call createModel_ev (modelFactory this) ;;;
  incrementRevision ;;;
  root <- serializeGModel ;;
  if needsClientLayout (diagramConfiguration this) then
    dirty <- call isDirty_ev (commandStack this) ;;
    ret [RequestBoundsAction root; SetDirtyStateAction dirty reason]
  else
    ret [SetModelAction root].

Definition submitModelDirectly (reason : option DirtyStateChangeReason) : M (list Action) :=
  root <- serializeGModel ;;
  match layoutKind (diagramConfiguration this), layoutEngine this with
  | AUTOMATIC, Some engine => await layout_ev engine
  | _, _ => ret tt
  end ;;;
  let result : list Action := [] in
  let result :=
    result ++ [ if revision_is_0 root
                then SetModelAction root
                else UpdateModelAction root (animatedUpdate (diagramConfiguration this)) ] in
  result <-
    (if negb (needsClientLayout (diagramConfiguration this)) then
       dirty <- call isDirty_ev (commandStack this) ;;
       ret (result ++ [SetDirtyStateAction dirty reason])
     else ret result) ;;
  result <-
    match validator this with
    | Some v =>
        r <- get_root ;;
        markers <- await (validate_ev [r] LIVE) (v [r] LIVE) ;;
        ret (result ++ [SetMarkersAction markers LIVE])
    | None => ret result
    end ;;
  ret result.

End Methods.

End Handler.

Arguments Return {Exn A} a.
Arguments Throw {Exn A} e.
Arguments mkOutcome {Elements Others Services SchemaBody Marker Exn A} trace awaits world completion.
Arguments trace {Elements Others Services SchemaBody Marker Exn A} o.
Arguments awaits {Elements Others Services SchemaBody Marker Exn A} o.
Arguments world {Elements Others Services SchemaBody Marker Exn A} o.
Arguments completion {Elements Others Services SchemaBody Marker Exn A} o.

(** The service members whose result a run awaited, in order. *)
Definition awaitedMembers {Elements Others Services SchemaBody Marker Exn A : Type}
    (o : @Outcome Elements Others Services SchemaBody Marker Exn A) : list Member :=
  map member (awaits o).

(** The kinds of the actions a run hands to its caller; a run that throws
    hands over none. *)
Definition emittedKinds {Elements Others Services SchemaBody Marker Exn : Type}
    (o : @Outcome Elements Others Services SchemaBody Marker Exn
           (list (@Action SchemaBody Marker))) : list ActionKind :=
  match completion o with
  | Return acts => map kind acts
  | Throw _ => []
  end.

(** The condition under which [submitModelDirectly] calls
    [layoutEngine.layout()]. *)
Definition awaitsLayout {Elements Others Services SchemaBody Marker Exn : Type}
    (this : @ModelSubmissionHandler Elements Others Services SchemaBody Marker Exn) : bool :=
  match layoutKind (diagramConfiguration this), layoutEngine this with
  | AUTOMATIC, Some _ => true
  | _, _ => false
  end.

(** A run in which every call returned, or in which the last call threw and
    the run completed with what it threw. *)
Definition propagates {Elements Others Services SchemaBody Marker Exn A : Type}
    (o : @Outcome Elements Others Services SchemaBody Marker Exn A) : Prop :=
  match completion o with
  | Return _ => Forall (fun ev => raised ev = None) (trace o)
  | Throw e =>
      exists pre ev,
        trace o = pre ++ [ev] /\
        Forall (fun ev' => raised ev' = None) pre /\
        raised ev = Some e
  end.

(** A service call that never changes the model state. *)
Definition keepsModelState {Elements Others Services Exn A : Type}
    (f : @Effect Elements Others Services Exn A) : Prop :=
  forall w, modelState (f w).1 = modelState w.

(** A method body that leaves the model state as it found it. *)
Definition keepsModelStateM {Elements Others Services SchemaBody Marker Exn A : Type}
    (m : @M Elements Others Services SchemaBody Marker Exn A) : Prop :=
  forall w, modelState (world (m w)) = modelState w.

(** A binding of the services, for running the methods on concrete data: the
    model root holds a list of element names, the serializer copies the root,
    the command stack is a dirty flag, the validator reports one marker per
    element. *)
Module Example.

Abbreviation World := (@World (list string) unit bool).
Abbreviation Handler :=
  (@ModelSubmissionHandler (list string) unit bool (list string) string string).
Abbreviation Effect := (@Effect (list string) unit bool string).
Abbreviation GModelRoot := (@GModelRoot (list string)).
Abbreviation GModelRootSchema := (@GModelRootSchema (list string)).

Definition schemaOf (r : GModelRoot) : Effect GModelRootSchema :=
  fun w => (w, Return (mkSchema (revision r) (elements r))).

Definition schemaFails (r : GModelRoot) : Effect GModelRootSchema :=
  fun w => (w, Throw "cannot serialize").

Definition keepModel : Effect unit :=
  fun w => (w, Return tt).

Definition dirtyFlag : Effect bool :=
  fun w => (w, Return (services w)).

Definition layoutNoop : Effect unit :=
  fun w => (w, Return tt).

Definition markElements (elems : list GModelRoot) (reason : MarkersReason)
    : Effect (list string) :=
  fun w => (w, Return (concat (map elements elems))).

Definition handler (cfg : DiagramConfiguration) (withLayout withValidator : bool) : Handler :=
  mkHandler cfg schemaOf keepModel
    (if withLayout then Some layoutNoop else None)
    dirtyFlag
    (if withValidator then Some markElements else None).

(** A configuration with every flag a parameter; its getters are those of
    the workflow example. *)
Definition configuration (kind : ServerLayoutKind) (clientLayout animated : bool)
    : DiagramConfiguration :=
  {| typeMapping := typeMapping WorkflowExample.configuration;
     shapeTypeHints := shapeTypeHints WorkflowExample.configuration;
     edgeTypeHints := edgeTypeHints WorkflowExample.configuration;
     layoutKind := kind;
     needsClientLayout := clientLayout;
     animatedUpdate := animated |}.

Definition world (rev : option float) (dirty : bool) : World :=
  mkWorld (mkModelState (mkRoot rev ["task1"; "task2"]) tt) dirty.

(** Client-side layout, no layout engine, no validator. *)
Definition manualClient : Handler :=
  handler (configuration MANUAL true true) false false.

(** No client-side layout, a validator. *)
Definition manualServer : Handler :=
  handler (configuration MANUAL false true) false true.

(** Server-side layout with a layout engine, a validator. *)
Definition automatic : Handler :=
  handler (configuration AUTOMATIC false false) true true.

(** As [manualClient], with a serializer that throws. *)
Definition unserializable : Handler :=
  mkHandler (configuration MANUAL true true) schemaFails keepModel None dirtyFlag None.

End Example.

End Submission.

(** * Properties of the diagram configuration *)

Section StoreFacts.

Import Store.

Lemma deref_alloc_new (o : Obj) (h : Heap) :
  deref (alloc o h).2 (alloc o h).1 = Some o.
Proof.
  unfold deref, alloc; simpl.
  rewrite lookup_app_r by lia.
  replace (length h - length h) with 0 by lia. reflexivity.
Qed.

Lemma deref_alloc_old (o : Obj) (h : Heap) (r : Ref) :
  r < length h -> deref (alloc o h).2 r = deref h r.
Proof. intros Hr. unfold deref, alloc; simpl. by rewrite lookup_app_l. Qed.

Lemma alloc_length (o : Obj) (h : Heap) :
  length (alloc o h).2 = S (length h).
Proof. unfold alloc; simpl. rewrite length_app; simpl. lia. Qed.

Lemma deref_map_set (r : Ref) (k : string) (v : GModelElementConstructor)
    (h : Heap) (m : gmap string GModelElementConstructor) :
  deref h r = Some (MapObj m) ->
  deref (map_set r k v h) r = Some (MapObj (<[k := v]> m)).
Proof.
  intros Hm. unfold deref, map_set in *.
  rewrite list_lookup_alter_eq, Hm. reflexivity.
Qed.

Lemma map_has_spec (h : Heap) (r : Ref) (m : gmap string GModelElementConstructor)
    (k : string) :
  deref h r = Some (MapObj m) ->
  map_has h r k = true <-> is_Some (m !! k).
Proof.
  intros Hm. unfold map_has. rewrite Hm.
  rewrite bool_decide_eq_true. reflexivity.
Qed.

End StoreFacts.

Section ConfigurationProperties.

Import ModelTypes Workflow.

Variable types : ModelTypes.t.
Variable DefaultTypes_EDGE : string.
Variable getDefaultMapping : Store.Heap -> Store.Ref * Store.Heap.

Abbreviation cfg :=
  (WorkflowDiagramConfiguration types DefaultTypes_EDGE getDefaultMapping).

(** The map [typeMapping] returns is the one [getDefaultMapping] returned,
    with the ten entries on top of the entries it had. *)
Lemma typeMapping_entries (h h0 : Store.Heap) (r0 : Store.Ref)
    (m0 : gmap string GModelElementConstructor) :
  getDefaultMapping h = (r0, h0) ->
  Store.deref h0 r0 = Some (Store.MapObj m0) ->
  (typeMapping cfg h).1 = r0 /\
  Store.deref (typeMapping cfg h).2 r0 =
    Some (Store.MapObj
      (<[STRUCTURE types := GCompartment]>
      (<[CATEGORY types := Category]>
      (<[TASK types := TaskNode]>
      (<[ACTIVITY_NODE types := ActivityNode]>
      (<[ICON types := GCompartment]>
      (<[WEIGHTED_EDGE types := GEdge]>
      (<[LABEL_ICON types := GLabel]>
      (<[COMP_HEADER types := GCompartment]>
      (<[LABEL_TEXT types := GLabel]>
      (<[LABEL_HEADING types := GLabel]> m0))))))))))).
Proof.
  intros Hd Hm. simpl. unfold get_typeMapping. rewrite Hd. simpl.
  split; [reflexivity|].
  do 10 (apply deref_map_set). exact Hm.
Qed.

Lemma typeMapping_has (h h0 : Store.Heap) (r0 : Store.Ref)
    (m0 : gmap string GModelElementConstructor) (k : string) :
  getDefaultMapping h = (r0, h0) ->
  Store.deref h0 r0 = Some (Store.MapObj m0) ->
  Store.map_has (typeMapping cfg h).2 (typeMapping cfg h).1 k = true <->
  is_Some (m0 !! k) \/ In k (registeredTypeIds types).
Proof.
  intros Hd Hm.
  destruct (typeMapping_entries h h0 r0 m0 Hd Hm) as [-> Hderef].
  rewrite (map_has_spec _ _ _ _ Hderef).
  rewrite !lookup_insert_is_Some'. unfold registeredTypeIds. simpl.
  tauto.
Qed.

Lemma declaredElementTypeIds_eq (h : Store.Heap) :
  declaredElementTypeIds cfg h =
    [ MANUAL_TASK types; AUTOMATED_TASK types; FORK_NODE types; JOIN_NODE types;
      DECISION_NODE types; MERGE_NODE types; CATEGORY types;
      DefaultTypes_EDGE; WEIGHTED_EDGE types ].
Proof.
  unfold declaredElementTypeIds.
  cbn [shapeTypeHints edgeTypeHints WorkflowDiagramConfiguration].
  unfold get_shapeTypeHints, get_edgeTypeHints. cbv zeta.
  rewrite deref_alloc_new.
  rewrite deref_alloc_old by (rewrite alloc_length; simpl; lia).
  rewrite deref_alloc_new. reflexivity.
Qed.

(** C4, as the code has it: the hint arrays are not kept on the
    configuration instance.  Every access to [shapeTypeHints] and to
    [edgeTypeHints] builds a new array: two consecutive accesses return
    distinct objects, their contents are equal, and the second access
    leaves the array of the first as it was.  Every access to
    [typeMapping] calls [getDefaultMapping()] and returns the object that
    call returned; when that object is a map, the access leaves it holding
    the entries it had and, set on top of them in this order, the entries for
    [LABEL_HEADING], [LABEL_TEXT], [COMP_HEADER], [LABEL_ICON],
    [WEIGHTED_EDGE], [ICON], [ACTIVITY_NODE], [TASK], [CATEGORY] and
    [STRUCTURE]. *)
Theorem getters_build_on_every_access (h : Store.Heap) :
  (let a1 := shapeTypeHints cfg h in
   let a2 := shapeTypeHints cfg a1.2 in
   a1.1 <> a2.1 /\
   is_Some (Store.deref a2.2 a2.1) /\
   Store.deref a2.2 a1.1 = Store.deref a2.2 a2.1 /\
   Store.deref a2.2 a1.1 = Store.deref a1.2 a1.1) /\
  (let a1 := edgeTypeHints cfg h in
   let a2 := edgeTypeHints cfg a1.2 in
   a1.1 <> a2.1 /\
   is_Some (Store.deref a2.2 a2.1) /\
   Store.deref a2.2 a1.1 = Store.deref a2.2 a2.1 /\
   Store.deref a2.2 a1.1 = Store.deref a1.2 a1.1) /\
  (typeMapping cfg h).1 = (getDefaultMapping h).1 /\
  (forall m0 : gmap string GModelElementConstructor,
      Store.deref (getDefaultMapping h).2 (getDefaultMapping h).1 =
        Some (Store.MapObj m0) ->
      Store.deref (typeMapping cfg h).2 (typeMapping cfg h).1 =
        Some (Store.MapObj
          (<[STRUCTURE types := GCompartment]>
          (<[CATEGORY types := Category]>
          (<[TASK types := TaskNode]>
          (<[ACTIVITY_NODE types := ActivityNode]>
          (<[ICON types := GCompartment]>
          (<[WEIGHTED_EDGE types := GEdge]>
          (<[LABEL_ICON types := GLabel]>
          (<[COMP_HEADER types := GCompartment]>
          (<[LABEL_TEXT types := GLabel]>
          (<[LABEL_HEADING types := GLabel]> m0)))))))))))).
Proof.
  split; [|split; [|split]].
  - cbn [shapeTypeHints WorkflowDiagramConfiguration]; cbv zeta.
    unfold get_shapeTypeHints.
    set (o := Store.ShapeHintArray _).
    assert (Hlen : length h < length (Store.alloc o h).2)
      by (rewrite alloc_length; lia).
    repeat split.
    + simpl. rewrite length_app. simpl. lia.
    + rewrite deref_alloc_new. eauto.
    + rewrite deref_alloc_new.
      rewrite deref_alloc_old by exact Hlen.
      apply deref_alloc_new.
    + rewrite deref_alloc_old by exact Hlen. reflexivity.
  - cbn [edgeTypeHints WorkflowDiagramConfiguration]; cbv zeta.
    unfold get_edgeTypeHints.
    set (o := Store.EdgeHintArray _).
    assert (Hlen : length h < length (Store.alloc o h).2)
      by (rewrite alloc_length; lia).
    repeat split.
    + simpl. rewrite length_app. simpl. lia.
    + rewrite deref_alloc_new. eauto.
    + rewrite deref_alloc_new.
      rewrite deref_alloc_old by exact Hlen.
      apply deref_alloc_new.
    + rewrite deref_alloc_old by exact Hlen. reflexivity.
  - simpl. unfold get_typeMapping.
    destruct (getDefaultMapping h) as [r0 h0]. reflexivity.
  - intros m0 Hm.
    destruct (getDefaultMapping h) as [r0 h0] eqn:Hd.
    destruct (typeMapping_entries h h0 r0 m0 Hd Hm) as [Hr H].
    rewrite Hr. exact H.
Qed.

(** C5, as the code has it: the keys of the map [typeMapping] returns are
    the keys of the default mapping and the ten identifiers the getter
    sets.  Of the identifiers the hints declare, [CATEGORY] and
    [WEIGHTED_EDGE] are among the ten and so always keys; each of the
    others ([MANUAL_TASK], [AUTOMATED_TASK], [FORK_NODE], [JOIN_NODE],
    [DECISION_NODE], [MERGE_NODE], [DefaultTypes.EDGE]) is a key exactly
    when the default mapping has it or it is equal to one of the ten. *)
Theorem typeMapping_keys (h h0 : Store.Heap) (r0 : Store.Ref)
    (m0 : gmap string GModelElementConstructor) :
  getDefaultMapping h = (r0, h0) ->
  Store.deref h0 r0 = Some (Store.MapObj m0) ->
  (forall k : string,
      Store.map_has (typeMapping cfg h).2 (typeMapping cfg h).1 k = true <->
      is_Some (m0 !! k) \/ In k (registeredTypeIds types)) /\
  Store.map_has (typeMapping cfg h).2 (typeMapping cfg h).1 (CATEGORY types) = true /\
  Store.map_has (typeMapping cfg h).2 (typeMapping cfg h).1 (WEIGHTED_EDGE types) = true /\
  (everyDeclaredTypeIsMapped cfg h <->
   forall k : string,
     In k [ MANUAL_TASK types; AUTOMATED_TASK types; FORK_NODE types;
            JOIN_NODE types; DECISION_NODE types; MERGE_NODE types;
            DefaultTypes_EDGE ] ->
     is_Some (m0 !! k) \/ In k (registeredTypeIds types)).
Proof.
  intros Hd Hm.
  assert (Hhas := fun k => typeMapping_has h h0 r0 m0 k Hd Hm).
  split; [exact Hhas|].
  split; [apply Hhas; right; unfold registeredTypeIds; simpl; tauto|].
  split; [apply Hhas; right; unfold registeredTypeIds; simpl; tauto|].
  unfold everyDeclaredTypeIsMapped.
  split.
  - intros Hall k Hk. apply Hhas, Hall.
    rewrite declaredElementTypeIds_eq. simpl in *. tauto.
  - intros Hall k Hk. apply Hhas.
    rewrite declaredElementTypeIds_eq in Hk. simpl in Hk.
    destruct Hk as [<-|[<-|[<-|[<-|[<-|[<-|[<-|[<-|[<-|[]]]]]]]]]];
      try (apply Hall; simpl; tauto);
      right; unfold registeredTypeIds; simpl; tauto.
Qed.

(** C6: the array [edgeTypeHints] returns holds two hints.  The hint of
    the default edge type has the seven-element list as its sources and as
    its targets; the hint of [WEIGHTED_EDGE] has [DECISION_NODE] as its only
    source and the four task and fork/join identifiers as its targets. *)
Theorem edgeTypeHints_lists (h : Store.Heap) :
  exists dflt weighted : EdgeTypeHint,
    Store.deref (edgeTypeHints cfg h).2 (edgeTypeHints cfg h).1 =
      Some (Store.EdgeHintArray [dflt; weighted]) /\
    dflt = createDefaultEdgeTypeHint types DefaultTypes_EDGE /\
    edge_elementTypeId dflt = DefaultTypes_EDGE /\
    sourceElementTypeIds dflt =
      [ MANUAL_TASK types; AUTOMATED_TASK types; DECISION_NODE types;
        MERGE_NODE types; FORK_NODE types; JOIN_NODE types; CATEGORY types ] /\
    targetElementTypeIds dflt =
      [ MANUAL_TASK types; AUTOMATED_TASK types; DECISION_NODE types;
        MERGE_NODE types; FORK_NODE types; JOIN_NODE types; CATEGORY types ] /\
    edge_elementTypeId weighted = WEIGHTED_EDGE types /\
    sourceElementTypeIds weighted = [ DECISION_NODE types ] /\
    targetElementTypeIds weighted =
      [ MANUAL_TASK types; AUTOMATED_TASK types; FORK_NODE types; JOIN_NODE types ].
Proof.
  cbn [edgeTypeHints WorkflowDiagramConfiguration].
  unfold get_edgeTypeHints.
  eexists _, _. split; [apply deref_alloc_new|].
  repeat split; reflexivity.
Qed.

End ConfigurationProperties.

(** C4 as stated fails: on the example binding, the second access to
    [shapeTypeHints] returns another object than the first. *)
Lemma shapeTypeHints_not_same_object :
  ~ sameObjectOnEveryAccess (shapeTypeHints WorkflowExample.configuration) Store.empty.
Proof. unfold sameObjectOnEveryAccess. vm_compute. discriminate. Qed.

(** [getters_build_on_every_access] on the example binding, from the empty
    store: the map [typeMapping] returns holds the entries of the default
    mapping and the ten entries of the getter. *)
Lemma getters_build_on_every_access_example :
  Store.deref (typeMapping WorkflowExample.configuration Store.empty).2
    (typeMapping WorkflowExample.configuration Store.empty).1 =
    Some (Store.MapObj
      (<["struct" := GCompartment]>
      (<["category" := Category]>
      (<["task" := TaskNode]>
      (<["activityNode" := ActivityNode]>
      (<["icon" := GCompartment]>
      (<["edge:weighted" := GEdge]>
      (<["label:icon" := GLabel]>
      (<["comp:header" := GCompartment]>
      (<["label:text" := GLabel]>
      (<["label:heading" := GLabel]> WorkflowExample.defaultMapping))))))))))).
Proof.
  exact (proj2 (proj2 (proj2
    (getters_build_on_every_access WorkflowExample.types
       WorkflowExample.DefaultTypes_EDGE WorkflowExample.getDefaultMapping
       Store.empty)))
    WorkflowExample.defaultMapping eq_refl).
Defined.

(** C5 as stated fails: on the example binding, the hints declare
    ["task:manual"] and the type mapping has no entry under it. *)
Lemma declared_type_without_mapping :
  ~ everyDeclaredTypeIsMapped WorkflowExample.configuration Store.empty.
Proof.
  intros Hall.
  specialize (Hall "task:manual").
  assert (Hin : In "task:manual"
    (declaredElementTypeIds WorkflowExample.configuration
       (typeMapping WorkflowExample.configuration Store.empty).2)).
  { vm_compute. tauto. }
  specialize (Hall Hin). vm_compute in Hall. discriminate.
Qed.

(** [typeMapping_keys] on the example binding, from the empty store. *)
Lemma typeMapping_keys_example :
  Store.map_has (typeMapping WorkflowExample.configuration Store.empty).2
    (typeMapping WorkflowExample.configuration Store.empty).1 "category" = true.
Proof.
  exact (proj1 (proj2
    (typeMapping_keys WorkflowExample.types WorkflowExample.DefaultTypes_EDGE
       WorkflowExample.getDefaultMapping Store.empty
       [Store.MapObj WorkflowExample.defaultMapping] 0
       WorkflowExample.defaultMapping eq_refl eq_refl))).
Defined.

(** * Further properties of the diagram configuration *)

Section ConfigurationTables.

Import ModelTypes Workflow.

Variable types : ModelTypes.t.
Variable DefaultTypes_EDGE : string.
Variable getDefaultMapping : Store.Heap -> Store.Ref * Store.Heap.

Abbreviation cfg :=
  (WorkflowDiagramConfiguration types DefaultTypes_EDGE getDefaultMapping).

Lemma shapeHintsOf_eq (h : Store.Heap) :
  shapeHintsOf cfg h =
    [ createDefaultShapeTypeHint (MANUAL_TASK types);
      createDefaultShapeTypeHint (AUTOMATED_TASK types);
      createDefaultShapeTypeHint (FORK_NODE types);
      createDefaultShapeTypeHint (JOIN_NODE types);
      createDefaultShapeTypeHint (DECISION_NODE types);
      createDefaultShapeTypeHint (MERGE_NODE types);
      mkShapeTypeHint (CATEGORY types) true true true true
        (Some [ DECISION_NODE types; MERGE_NODE types; FORK_NODE types;
                JOIN_NODE types; AUTOMATED_TASK types; MANUAL_TASK types;
                CATEGORY types ]) ].
Proof.
  unfold shapeHintsOf. cbn [shapeTypeHints WorkflowDiagramConfiguration].
  unfold get_shapeTypeHints. rewrite deref_alloc_new. reflexivity.
Qed.

Lemma edgeHintsOf_eq (h : Store.Heap) :
  edgeHintsOf cfg h =
    [ createDefaultEdgeTypeHint types DefaultTypes_EDGE;
      mkEdgeTypeHint (WEIGHTED_EDGE types) true true true
        [ DECISION_NODE types ]
        [ MANUAL_TASK types; AUTOMATED_TASK types; FORK_NODE types;
          JOIN_NODE types ] ].
Proof.
  unfold edgeHintsOf. cbn [edgeTypeHints WorkflowDiagramConfiguration].
  unfold get_edgeTypeHints. rewrite deref_alloc_new. reflexivity.
Qed.

(** X1: every hint allows every operation.  Each of the seven shape hints is
    repositionable, deletable, resizable and reparentable, each of the two
    edge hints is repositionable, deletable and routable; the last shape
    hint is the only one with a list of containable types. *)
Theorem hints_allow_every_operation (h : Store.Heap) :
  Forall (fun s => shape_repositionable s = true /\ shape_deletable s = true /\
                   resizable s = true /\ reparentable s = true)
    (shapeHintsOf cfg h) /\
  Forall (fun e => edge_repositionable e = true /\ edge_deletable e = true /\
                   routable e = true)
    (edgeHintsOf cfg h) /\
  length (shapeHintsOf cfg h) = 7 /\
  length (edgeHintsOf cfg h) = 2 /\
  map (fun s => bool_decide (is_Some (containableElementTypeIds s)))
      (shapeHintsOf cfg h) =
    [false; false; false; false; false; false; true].
Proof.
  rewrite shapeHintsOf_eq, edgeHintsOf_eq.
  split; [|split; [|split; [|split]]].
  - repeat (apply List.Forall_cons; [cbn; tauto|]). apply List.Forall_nil.
  - repeat (apply List.Forall_cons; [cbn; tauto|]). apply List.Forall_nil.
  - reflexivity.
  - reflexivity.
  - reflexivity.
Qed.

(** X2: the hints refer to declared types only.  Every identifier in a
    list of containable types, of allowed edge sources or of allowed edge
    targets is the element type of one of the shape hints. *)
Theorem hints_refer_to_declared_shapes (h : Store.Heap) :
  let shapeTypes := map shape_elementTypeId (shapeHintsOf cfg h) in
  Forall (fun s => forall l, containableElementTypeIds s = Some l -> incl l shapeTypes)
    (shapeHintsOf cfg h) /\
  Forall (fun e => incl (sourceElementTypeIds e) shapeTypes /\
                   incl (targetElementTypeIds e) shapeTypes)
    (edgeHintsOf cfg h).
Proof.
  cbv zeta. rewrite shapeHintsOf_eq, edgeHintsOf_eq. split.
  - repeat (apply List.Forall_cons; [|]); try apply List.Forall_nil.
    1-6: intros l; discriminate.
    intros l [= <-] x Hx. cbn in *. tauto.
  - repeat (apply List.Forall_cons; [|]); try apply List.Forall_nil.
    all: split; intros x Hx; cbn in *; tauto.
Qed.

(** X3: the three lists of node types agree.  The default edge hint allows
    the same seven types as sources and as targets, for whatever edge type it
    is created; the types a category may contain are these seven in another
    order; and every source and target the weighted edge allows is allowed
    for the default edge too. *)
Theorem node_type_lists_agree (h : Store.Heap) (elementId : string) :
  let dflt := createDefaultEdgeTypeHint types elementId in
  sourceElementTypeIds dflt = targetElementTypeIds dflt /\
  Forall (fun s => forall l, containableElementTypeIds s = Some l ->
                             Permutation l (sourceElementTypeIds dflt))
    (shapeHintsOf cfg h) /\
  Forall (fun e => incl (sourceElementTypeIds e) (sourceElementTypeIds dflt) /\
                   incl (targetElementTypeIds e) (targetElementTypeIds dflt))
    (edgeHintsOf cfg h).
Proof.
  cbv zeta. rewrite shapeHintsOf_eq, edgeHintsOf_eq.
  split; [reflexivity|]. split.
  - repeat (apply List.Forall_cons; [|]); try apply List.Forall_nil.
    1-6: intros l; discriminate.
    intros l [= <-]. cbn. solve_Permutation.
  - repeat (apply List.Forall_cons; [|]); try apply List.Forall_nil.
    all: split; intros x Hx; cbn in *; tauto.
Qed.

(** *** The entries of the type mapping *)

(** The ten [mapping.set] calls, on the entries of a map. *)
Definition withRegisteredTypes (m : gmap string GModelElementConstructor)
    : gmap string GModelElementConstructor :=
  <[STRUCTURE types := GCompartment]>
  (<[CATEGORY types := Category]>
  (<[TASK types := TaskNode]>
  (<[ACTIVITY_NODE types := ActivityNode]>
  (<[ICON types := GCompartment]>
  (<[WEIGHTED_EDGE types := GEdge]>
  (<[LABEL_ICON types := GLabel]>
  (<[COMP_HEADER types := GCompartment]>
  (<[LABEL_TEXT types := GLabel]>
  (<[LABEL_HEADING types := GLabel]> m))))))))).

Lemma typeMapping_deref (h h0 : Store.Heap) (r0 : Store.Ref)
    (m0 : gmap string GModelElementConstructor) :
  getDefaultMapping h = (r0, h0) ->
  Store.deref h0 r0 = Some (Store.MapObj m0) ->
  typeMapping cfg h =
    (r0, alter (fun _ => Store.MapObj (withRegisteredTypes m0)) r0 h0).
Proof.
  intros Hd Hm. cbn [typeMapping WorkflowDiagramConfiguration].
  unfold get_typeMapping. rewrite Hd. f_equal.
  unfold Store.map_set, Store.deref in *.
  apply list_eq. intros i.
  destruct (decide (i = r0)) as [->|Hne].
  - rewrite !list_lookup_alter_eq, Hm. reflexivity.
  - rewrite !list_lookup_alter_ne by congruence. reflexivity.
Qed.

Lemma typeMapping_get_lookup (h h0 : Store.Heap) (r0 : Store.Ref)
    (m0 : gmap string GModelElementConstructor) (k : string) :
  getDefaultMapping h = (r0, h0) ->
  Store.deref h0 r0 = Some (Store.MapObj m0) ->
  Store.map_get (typeMapping cfg h).2 (typeMapping cfg h).1 k =
    withRegisteredTypes m0 !! k.
Proof.
  intros Hd Hm. rewrite (typeMapping_deref h h0 r0 m0 Hd Hm).
  unfold Store.map_get, Store.deref in *. cbn [fst snd].
  rewrite list_lookup_alter_eq, Hm. reflexivity.
Qed.

(** The ten entries win over the entries the map had. *)
Lemma withRegisteredTypes_union (m : gmap string GModelElementConstructor) :
  withRegisteredTypes m = withRegisteredTypes ∅ ∪ m.
Proof.
  unfold withRegisteredTypes.
  rewrite <- !insert_union_l. by rewrite (left_id ∅ (∪)).
Qed.

Lemma withRegisteredTypes_idemp (m : gmap string GModelElementConstructor) :
  withRegisteredTypes (withRegisteredTypes m) = withRegisteredTypes m.
Proof.
  rewrite (withRegisteredTypes_union (withRegisteredTypes m)).
  rewrite (withRegisteredTypes_union m).
  rewrite (assoc_L (∪)). by rewrite (idemp_L (∪)).
Qed.

(** X4: the type mapping is the default mapping with ten entries put on
    top.  A key that is none of the ten identifiers maps to what the default
    mapping maps it to (nothing, if the default mapping has no such key); a
    key that is one of the ten maps to one of the six classes the getter
    names, whatever the default mapping had under it; and [STRUCTURE], set
    last, always maps to [GCompartment]. *)
Theorem typeMapping_overrides_default (h h0 : Store.Heap) (r0 : Store.Ref)
    (m0 : gmap string GModelElementConstructor) :
  getDefaultMapping h = (r0, h0) ->
  Store.deref h0 r0 = Some (Store.MapObj m0) ->
  (forall k, ~ In k (registeredTypeIds types) ->
             Store.map_get (typeMapping cfg h).2 (typeMapping cfg h).1 k = m0 !! k) /\
  (forall k, In k (registeredTypeIds types) ->
             exists c, Store.map_get (typeMapping cfg h).2 (typeMapping cfg h).1 k = Some c /\
                       In c [GLabel; GCompartment; GEdge; ActivityNode; TaskNode; Category]) /\
  Store.map_get (typeMapping cfg h).2 (typeMapping cfg h).1 (STRUCTURE types) =
    Some GCompartment.
Proof.
  intros Hd Hm.
  assert (Hget := fun k => typeMapping_get_lookup h h0 r0 m0 k Hd Hm).
  split; [|split].
  - intros k Hk. rewrite Hget. unfold withRegisteredTypes.
    unfold registeredTypeIds in Hk. cbn in Hk.
    rewrite !lookup_insert_ne by (intros <-; tauto). reflexivity.
  - intros k Hk. rewrite Hget. unfold withRegisteredTypes.
    unfold registeredTypeIds in Hk. cbn in Hk.
    repeat match goal with
    | |- context [ <[?i := ?c]> ?m !! k ] =>
        destruct (decide (i = k)) as [->|?];
        [ rewrite lookup_insert_eq; exists c; split; [reflexivity|cbn; tauto]
        | rewrite lookup_insert_ne by assumption ]
    end.
    exfalso. tauto.
  - rewrite Hget. unfold withRegisteredTypes. apply lookup_insert_eq.
Qed.

(** X5: when the ten identifiers are pairwise distinct, each maps to the
    class written next to it in the getter. *)
Theorem typeMapping_table (h h0 : Store.Heap) (r0 : Store.Ref)
    (m0 : gmap string GModelElementConstructor) :
  getDefaultMapping h = (r0, h0) ->
  Store.deref h0 r0 = Some (Store.MapObj m0) ->
  NoDup (registeredTypeIds types) ->
  map (Store.map_get (typeMapping cfg h).2 (typeMapping cfg h).1)
      (registeredTypeIds types) =
    [ Some GLabel; Some GLabel; Some GCompartment; Some GLabel; Some GEdge;
      Some GCompartment; Some ActivityNode; Some TaskNode; Some Category;
      Some GCompartment ].
Proof.
  intros Hd Hm Hnd.
  assert (Hget := fun k => typeMapping_get_lookup h h0 r0 m0 k Hd Hm).
  unfold registeredTypeIds in *. cbn [map]. rewrite !Hget.
  unfold withRegisteredTypes.
  repeat match goal with
  | H : NoDup (_ :: _) |- _ => apply NoDup_cons in H as [? H]
  end.
  repeat match goal with
  | H : _ ∉ _ :: _ |- _ => apply not_elem_of_cons in H as [? H]
  end.
  repeat (f_equal;
    [solve [rewrite ?lookup_insert_ne by congruence; apply lookup_insert_eq]|]).
  f_equal. apply lookup_insert_eq.
Qed.

(** X6: the getter works on the map [getDefaultMapping()] returned and on
    nothing else.  It allocates no object of its own, and every other object
    of the store is as [getDefaultMapping()] left it. *)
Theorem typeMapping_touches_its_map_only (h : Store.Heap) :
  length (typeMapping cfg h).2 = length (getDefaultMapping h).2 /\
  forall r, r <> (typeMapping cfg h).1 ->
            Store.deref (typeMapping cfg h).2 r =
              Store.deref (getDefaultMapping h).2 r.
Proof.
  cbn [typeMapping WorkflowDiagramConfiguration]. unfold get_typeMapping.
  destruct (getDefaultMapping h) as [r0 h0]. cbn [fst snd].
  unfold Store.map_set, Store.deref. split.
  - rewrite !length_alter. reflexivity.
  - intros r Hr. rewrite !list_lookup_alter_ne by congruence. reflexivity.
Qed.

(** X7: setting the ten entries twice is setting them once.  If
    [getDefaultMapping()] hands out one and the same map object on every call
    (and allocates nothing), a second access to [typeMapping] returns that
    object again and leaves the store exactly as the first access left it. *)
Theorem typeMapping_twice_on_shared_map (h : Store.Heap) (r0 : Store.Ref)
    (m0 : gmap string GModelElementConstructor) :
  (forall h', getDefaultMapping h' = (r0, h')) ->
  Store.deref h r0 = Some (Store.MapObj m0) ->
  typeMapping cfg (typeMapping cfg h).2 = typeMapping cfg h.
Proof.
  intros Hshared Hm.
  rewrite (typeMapping_deref h h r0 m0 (Hshared h) Hm). cbn [snd].
  set (h1 := alter _ r0 h).
  assert (Hm1 : Store.deref h1 r0 = Some (Store.MapObj (withRegisteredTypes m0))).
  { unfold h1, Store.deref in *. rewrite list_lookup_alter_eq, Hm. reflexivity. }
  rewrite (typeMapping_deref h1 h1 r0 _ (Hshared h1) Hm1).
  f_equal. unfold h1. rewrite withRegisteredTypes_idemp.
  apply list_eq. intros i. destruct (decide (i = r0)) as [->|Hne].
  - rewrite !list_lookup_alter_eq. unfold Store.deref in Hm. rewrite Hm. reflexivity.
  - rewrite !list_lookup_alter_ne by congruence. reflexivity.
Qed.

End ConfigurationTables.

(** * Arithmetic of JavaScript numbers

    What binary64 addition does on integers: from the bit-level
    specification of [PrimFloat.add] ([SFadd] on [spec_float]), adding 1 to
    an integer below 2^53 - 1 is exact. *)

Section Numbers.

Local Open Scope Z_scope.

(** [q * 2^k] on [positive]. *)
Definition P2 (q : positive) (k : nat) : positive := Nat.iter k xO q.

Lemma P2_add q a b : P2 (P2 q a) b = P2 q (b + a).
Proof. unfold P2. symmetry. apply Nat.iter_add. Qed.

Lemma digits_P2 q k :
  Zpos (digits2_pos (P2 q k)) = Zpos (digits2_pos q) + Z.of_nat k.
Proof.
  induction k as [|k IH].
  - cbn. lia.
  - change (P2 q (S k)) with (xO (P2 q k)). cbn [digits2_pos].
    rewrite Pos2Z.inj_succ, IH. lia.
Qed.

Lemma pos_iter_P2 q d : Pos.iter xO q d = P2 q (Pos.to_nat d).
Proof. unfold P2. apply Pos2Nat.inj_iter. Qed.

Lemma iter_pos_nat {A} (f : A -> A) p x :
  SpecFloat.iter_pos f p x = Nat.iter (Pos.to_nat p) f x.
Proof.
  revert x. induction p as [p IH|p IH|]; intros x; cbn [SpecFloat.iter_pos].
  - rewrite !IH. rewrite Pos2Nat.inj_xI.
    rewrite <- Nat.iter_add, <- Nat.iter_succ_r. f_equal. lia.
  - rewrite !IH. rewrite Pos2Nat.inj_xO.
    rewrite <- Nat.iter_add. f_equal. lia.
  - reflexivity.
Qed.

Lemma shr_P2 q j k :
  Nat.iter k shr_1 (Build_shr_record (Zpos (P2 q (k + j))) false false) =
  Build_shr_record (Zpos (P2 q j)) false false.
Proof.
  induction k as [|k IH].
  - reflexivity.
  - rewrite Nat.iter_succ_r.
    change (P2 q (S k + j)) with (xO (P2 q (k + j))). cbn [shr_1 orb].
    exact IH.
Qed.

Lemma digits_bound p (k : nat) : Zpos p < 2 ^ Z.of_nat k -> Zpos (digits2_pos p) <= Z.of_nat k.
Proof.
  revert k. induction p as [p IH|p IH|]; intros k H.
  - destruct k as [|k]; [cbn in H; lia|].
    rewrite Nat2Z.inj_succ, Z.pow_succ_r in H by lia.
    cbn [digits2_pos]. rewrite Pos2Z.inj_succ.
    specialize (IH k). lia.
  - destruct k as [|k]; [cbn in H; lia|].
    rewrite Nat2Z.inj_succ, Z.pow_succ_r in H by lia.
    cbn [digits2_pos]. rewrite Pos2Z.inj_succ.
    specialize (IH k). lia.
  - destruct k as [|k]; [cbn in H; lia|]. cbn. lia.
Qed.

(* A mantissa q * 2^j at exponent -j, with q of at most 53 bits and j large
   enough for 53 bits: rounding gives q on 53 bits, exactly. *)
Lemma binary_round_aux_P2 q (j : nat) :
  Zpos (digits2_pos q) <= 53 ->
  53 - Zpos (digits2_pos q) <= Z.of_nat j ->
  binary_round_aux prec emax false (Zpos (P2 q j)) (- Z.of_nat j) loc_Exact =
  S754_finite false (P2 q (Z.to_nat (53 - Zpos (digits2_pos q))))
    (Zpos (digits2_pos q) - 53).
Proof.
  intros Hd Hj.
  set (d := Zpos (digits2_pos q)) in *.
  assert (Hd1 : 1 <= d) by (unfold d; lia).
  set (a := Z.to_nat (53 - d)).
  assert (Hfexp : forall x, fexp prec emax x = Z.max (x - 53) (-1074)) by reflexivity.
  assert (Hfirst :
    shr_fexp prec emax (Zpos (P2 q j)) (- Z.of_nat j) loc_Exact =
    (Build_shr_record (Zpos (P2 q a)) false false, d - 53)).
  { unfold shr_fexp. cbn [Zdigits2 shr_record_of_loc].
    rewrite digits_P2, Hfexp. fold d.
    replace (Z.max (d + Z.of_nat j + - Z.of_nat j - 53) (-1074) - - Z.of_nat j)
      with (Z.of_nat (j - a)) by (unfold a; lia).
    unfold shr. destruct (Z.of_nat (j - a)) as [|n|n] eqn:En.
    - assert (j = a) by (unfold a in *; lia). subst j.
      f_equal. unfold a; lia.
    - rewrite iter_pos_nat.
      replace j with (Pos.to_nat n + a)%nat at 1 by (unfold a in *; lia).
      rewrite shr_P2. f_equal. unfold a in *; lia.
    - lia. }
  assert (Hsecond :
    shr_fexp prec emax (Zpos (P2 q a)) (d - 53) loc_Exact =
    (Build_shr_record (Zpos (P2 q a)) false false, d - 53)).
  { unfold shr_fexp. cbn [Zdigits2 shr_record_of_loc].
    rewrite digits_P2, Hfexp. fold d.
    replace (Z.max (d + Z.of_nat a + (d - 53) - 53) (-1074) - (d - 53)) with 0
      by (unfold a; lia).
    reflexivity. }
  unfold binary_round_aux. rewrite Hfirst.
  cbn [shr_m loc_of_shr_record round_nearest_even]. rewrite Hsecond.
  cbn [shr_m].
  replace (d - 53 <=? emax - prec) with true; [reflexivity|].
  symmetry. apply Z.leb_le. change (emax - prec) with 971. lia.
Qed.

Lemma binary_round_P2 q (k : nat) :
  Zpos (digits2_pos q) <= 53 ->
  binary_round prec emax false (P2 q k) (- Z.of_nat k) =
  S754_finite false (P2 q (Z.to_nat (53 - Zpos (digits2_pos q))))
    (Zpos (digits2_pos q) - 53).
Proof.
  intros Hd. unfold binary_round.
  set (d := Zpos (digits2_pos q)) in *.
  assert (Hd1 : 1 <= d) by (unfold d; lia).
  rewrite digits_P2. fold d.
  change (fexp prec emax (d + Z.of_nat k + - Z.of_nat k))
    with (Z.max (d + Z.of_nat k + - Z.of_nat k - 53) (-1074)).
  replace (Z.max (d + Z.of_nat k + - Z.of_nat k - 53) (-1074)) with (d - 53) by lia.
  unfold shl_align.
  destruct (d - 53 - - Z.of_nat k) as [|n|n] eqn:En.
  - apply binary_round_aux_P2; fold d; lia.
  - apply binary_round_aux_P2; fold d; lia.
  - rewrite pos_iter_P2, P2_add.
    replace (d - 53) with (- Z.of_nat (Pos.to_nat n + k)) at 1 by lia.
    rewrite binary_round_aux_P2; fold d; [reflexivity|lia|lia].
Qed.

Definition canonicalDouble (q : positive) : spec_float :=
  S754_finite false (P2 q (Z.to_nat (53 - Zpos (digits2_pos q))))
    (Zpos (digits2_pos q) - 53).

Lemma binary_normalize_small p :
  Zpos p < 2 ^ 53 ->
  binary_normalize prec emax (Zpos p) 0 false = canonicalDouble p.
Proof.
  intros Hp. cbn [binary_normalize].
  apply (binary_round_P2 p 0).
  apply (digits_bound p 53). exact Hp.
Qed.

Lemma canonicalDouble_valid p :
  Zpos (digits2_pos p) <= 53 -> valid_binary (canonicalDouble p) = true.
Proof.
  intros Hd. unfold canonicalDouble, valid_binary, bounded, canonical_mantissa.
  rewrite digits_P2.
  change (fexp prec emax ?x) with (Z.max (x - 53) (-1074)).
  apply andb_true_intro. split.
  - apply Z.eqb_eq. lia.
  - apply Z.leb_le. change (emax - prec) with 971. lia.
Qed.

Lemma Prim2SF_numberOfZ p :
  Zpos p < 2 ^ 53 ->
  Prim2SF (numberOfZ (Zpos p)) = canonicalDouble p.
Proof.
  intros Hp. unfold numberOfZ. rewrite (binary_normalize_small p Hp).
  apply Prim2SF_SF2Prim, canonicalDouble_valid.
  apply (digits_bound p 53). exact Hp.
Qed.

Lemma P2_plus p k : (P2 p k + P2 1 k)%positive = P2 (p + 1) k.
Proof.
  induction k as [|k IH]; [reflexivity|].
  change (P2 ?q (S k)) with (xO (P2 q k)).
  change (xO (P2 p k + P2 1 k)%positive = xO (P2 (p + 1) k)).
  rewrite IH. reflexivity.
Qed.

Lemma SFadd_canonicalDouble_one p :
  Zpos p + 1 < 2 ^ 53 ->
  SF64add (canonicalDouble p) (Prim2SF 1%float) = canonicalDouble (p + 1).
Proof.
  intros Hp.
  assert (Hd : Zpos (digits2_pos p) <= 53) by (apply (digits_bound p 53); lia).
  assert (Hd' : Zpos (digits2_pos (p + 1)) <= 53)
    by (apply (digits_bound (p + 1) 53); lia).
  replace (Prim2SF 1%float) with (S754_finite false (P2 1 52) (-52))
    by (vm_compute; reflexivity).
  unfold SF64add, canonicalDouble, SFadd.
  set (d := Zpos (digits2_pos p)) in *.
  assert (Hd1 : 1 <= d) by (unfold d; lia).
  replace (Z.min (d - 53) (-52)) with (-52) by lia.
  assert (Hx : fst (shl_align (P2 p (Z.to_nat (53 - d))) (d - 53) (-52)) = P2 p 52).
  { unfold shl_align. destruct (-52 - (d - 53)) as [|n|n] eqn:En; cbn [fst].
    - f_equal. lia.
    - lia.
    - rewrite pos_iter_P2, P2_add. f_equal. lia. }
  assert (Hy : fst (shl_align (P2 1 52) (-52) (-52)) = P2 1 52) by reflexivity.
  rewrite Hx, Hy. cbn [cond_Zopp].
  rewrite <- Pos2Z.inj_add, P2_plus. cbn [binary_normalize].
  apply (binary_round_P2 (p + 1) 52). exact Hd'.
Qed.

Theorem numberOfZ_succ n :
  0 <= n -> n + 1 < 2 ^ 53 ->
  (numberOfZ n + 1)%float = numberOfZ (n + 1).
Proof.
  intros Hn Hb. destruct n as [|p|p]; [vm_compute; reflexivity| |lia].
  apply Prim2SF_inj. rewrite FloatAxioms.add_spec.
  rewrite (Prim2SF_numberOfZ p) by lia.
  replace (Zpos p + 1) with (Zpos (p + 1)) by lia.
  rewrite (Prim2SF_numberOfZ (p + 1)) by lia.
  apply SFadd_canonicalDouble_one. lia.
Qed.

Lemma numberOfZ_not_zero n :
  1 <= n < 2 ^ 53 -> (numberOfZ n =? 0)%float = false.
Proof.
  intros [H1 H2]. destruct n as [|p|p]; try lia.
  rewrite FloatAxioms.eqb_spec, (Prim2SF_numberOfZ p H2). reflexivity.
Qed.

(** [x === 0] holds of the two zeros and of nothing else. *)
Lemma strictly_equal_zero (x : float) :
  PrimFloat.eqb x PrimFloat.zero = true <->
  x = PrimFloat.zero \/ x = PrimFloat.neg_zero.
Proof.
  split.
  - intros H. rewrite FloatAxioms.eqb_spec in H.
    rewrite <- (SF2Prim_Prim2SF x).
    destruct (Prim2SF x) as [[]|[]| |[] m e]; cbn in H; try discriminate.
    + right; reflexivity.
    + left; reflexivity.
  - intros [->| ->]; reflexivity.
Qed.

Lemma not_strictly_zero (x : float) :
  PrimFloat.eqb x PrimFloat.zero = false ->
  ~ (Some x = Some PrimFloat.zero \/ Some x = Some PrimFloat.neg_zero).
Proof.
  intros Hx [[= ->]|[= ->]]; vm_compute in Hx; discriminate.
Qed.

(** [(revision ?? 0) + 1] on an absent revision or on an integer one. *)
Lemma incremented_revision (n : Z) (rev : option float) :
  0 <= n -> n + 1 < 2 ^ 53 ->
  rev = Some (numberOfZ n) \/ n = 0 /\ rev = None ->
  PrimFloat.add (default PrimFloat.zero rev) PrimFloat.one = numberOfZ (n + 1).
Proof.
  intros Hn Hb [->|[-> ->]].
  - apply numberOfZ_succ; assumption.
  - reflexivity.
Qed.

End Numbers.

Arguments numberOfZ : simpl never.

(** * Properties of the model submission handler *)

Section Properties.

Import Submission.

Context {Elements Others Services SchemaBody Marker Exn : Type}.

Abbreviation World := (@World Elements Others Services).
Abbreviation Event := (@Event Elements SchemaBody Marker Exn).
Abbreviation Handler :=
  (@ModelSubmissionHandler Elements Others Services SchemaBody Marker Exn).
Abbreviation M := (@M Elements Others Services SchemaBody Marker Exn).
Abbreviation incrementRevision :=
  (@incrementRevision Elements Others Services SchemaBody Marker Exn).
Abbreviation Outcome := (@Outcome Elements Others Services SchemaBody Marker Exn).
Abbreviation Effect := (@Effect Elements Others Services Exn).
Abbreviation Completion := (@Completion Exn).
Abbreviation ret := (@ret Elements Others Services SchemaBody Marker Exn _).
Abbreviation gets := (@gets Elements Others Services SchemaBody Marker Exn _).
Abbreviation modify := (@modify Elements Others Services SchemaBody Marker Exn).

Implicit Types (this : Handler) (w : World) (reason : option DirtyStateChangeReason).

(** *** The monad: what [bind] does to the three parts of an outcome *)

Lemma completion_bind {A B} (m : M A) (k : A -> M B) w :
  completion (bind m k w) =
    match completion (m w) with
    | Return a => completion (k a (world (m w)))
    | Throw e => Throw e
    end.
Proof.
  unfold bind. destruct (m w) as [t aw w1 [a|e]]; cbn; [|reflexivity].
  destruct (k a w1); reflexivity.
Qed.

Lemma world_bind {A B} (m : M A) (k : A -> M B) w :
  world (bind m k w) =
    match completion (m w) with
    | Return a => world (k a (world (m w)))
    | Throw _ => world (m w)
    end.
Proof.
  unfold bind. destruct (m w) as [t aw w1 [a|e]]; cbn; [|reflexivity].
  destruct (k a w1); reflexivity.
Qed.

Lemma trace_bind {A B} (m : M A) (k : A -> M B) w :
  trace (bind m k w) =
    match completion (m w) with
    | Return a => trace (m w) ++ trace (k a (world (m w)))
    | Throw _ => trace (m w)
    end.
Proof.
  unfold bind. destruct (m w) as [t aw w1 [a|e]]; cbn; [|reflexivity].
  destruct (k a w1); reflexivity.
Qed.

Lemma awaits_bind {A B} (m : M A) (k : A -> M B) w :
  awaits (bind m k w) =
    match completion (m w) with
    | Return a => awaits (m w) ++ awaits (k a (world (m w)))
    | Throw _ => awaits (m w)
    end.
Proof.
  unfold bind. destruct (m w) as [t aw w1 [a|e]]; cbn; [|reflexivity].
  destruct (k a w1); reflexivity.
Qed.

Lemma completion_call {A} (ev : Completion A -> Event) (f : Effect A) w :
  completion (call ev f w) = (f w).2.
Proof. unfold call. destruct (f w); reflexivity. Qed.

Lemma world_call {A} (ev : Completion A -> Event) (f : Effect A) w :
  world (call ev f w) = (f w).1.
Proof. unfold call. destruct (f w); reflexivity. Qed.

(** *** Thrown values: no step of the monad swallows one *)

Lemma propagates_ret {A} (a : A) w : propagates (ret a w).
Proof. unfold propagates; cbn. constructor. Qed.

Lemma propagates_gets {A} (f : World -> A) w : propagates (gets f w).
Proof. unfold propagates; cbn. constructor. Qed.

Lemma propagates_modify (f : World -> World) w : propagates (modify f w).
Proof. unfold propagates; cbn. constructor. Qed.

Lemma propagates_call {A} (ev : Completion A -> Event) (f : Effect A) w :
  (forall r, raised (ev r) = thrown r) -> propagates (call ev f w).
Proof.
  intros Hev. unfold propagates, call.
  destruct (f w) as [w' [a|e]]; cbn.
  - constructor; [apply Hev|constructor].
  - exists [], (ev (Throw e)). repeat split; [constructor|apply Hev].
Qed.

Lemma propagates_await {A} (ev : Completion A -> Event) (f : Effect A) w :
  (forall r, raised (ev r) = thrown r) -> propagates (await ev f w).
Proof.
  intros Hev. unfold propagates, await.
  destruct (f w) as [w' [a|e]]; cbn.
  - constructor; [apply Hev|constructor].
  - exists [], (ev (Throw e)). repeat split; [constructor|apply Hev].
Qed.

Lemma propagates_bind {A B} (m : M A) (k : A -> M B) w :
  propagates (m w) ->
  (forall a w', propagates (k a w')) ->
  propagates (bind m k w).
Proof.
  unfold propagates. intros Hm Hk.
  rewrite completion_bind, trace_bind.
  destruct (completion (m w)) as [a|e]; [|exact Hm].
  specialize (Hk a (world (m w))).
  destruct (completion (k a (world (m w)))) as [b|e].
  - apply Forall_app; split; assumption.
  - destruct Hk as (pre & ev & Htr & Hpre & Hev).
    exists (trace (m w) ++ pre), ev. rewrite Htr, app_assoc.
    repeat split; [|exact Hev].
    apply Forall_app; split; assumption.
Qed.

Lemma propagates_spec {A} (o : Outcome A) :
  propagates o ->
  (forall e, completion o = Throw e <->
             exists ev, In ev (trace o) /\ raised ev = Some e) /\
  (forall pre ev post,
      trace o = pre ++ ev :: post -> raised ev <> None -> post = []).
Proof.
  unfold propagates. intros Hp.
  destruct (completion o) as [a|e0].
  - rewrite Forall_forall in Hp. split.
    + intros e; split; [discriminate|].
      intros (ev & Hin & Hev).
      rewrite (Hp ev) in Hev; [discriminate|].
      apply list_elem_of_In, Hin.
    + intros pre ev post Htr Hev. exfalso. apply Hev, Hp.
      rewrite Htr. apply list_elem_of_In, in_elt.
  - destruct Hp as (pre0 & ev0 & Htr & Hpre & Hev0).
    rewrite Forall_forall in Hpre. split.
    + intros e; split.
      * intros [= ->]. exists ev0. split; [|exact Hev0].
        rewrite Htr. apply in_or_app; right; left; reflexivity.
      * intros (ev & Hin & Hev). rewrite Htr in Hin.
        apply in_app_or in Hin as [Hin|[<-|[]]].
        -- rewrite (Hpre ev) in Hev; [discriminate|].
           apply list_elem_of_In, Hin.
        -- congruence.
    + rewrite Htr. clear Htr. intros pre.
      revert pre0 Hpre.
      induction pre as [|x pre IH]; intros pre0 Hpre ev post Heq Hev.
      * destruct pre0 as [|y pre0]; simplify_eq/=; [reflexivity|].
        exfalso. apply Hev, Hpre. constructor.
      * destruct pre0 as [|y pre0]; simplify_eq/=.
        -- destruct pre; discriminate.
        -- eapply (IH pre0); [|eassumption|exact Hev].
           intros z Hz. apply Hpre. constructor. exact Hz.
Qed.

Lemma submitModel_propagates this reason w :
  propagates (submitModel this reason w).
Proof.
  unfold submitModel, serializeGModel, Submission.incrementRevision,
    get_root, set_revision.
  repeat first
    [ apply propagates_bind; [|intros ? ?]
    | apply propagates_call; intros []; reflexivity
    | apply propagates_gets
    | apply propagates_modify
    | apply propagates_ret
    | match goal with |- context [ if ?b then _ else _ ] => destruct b end ].
Qed.

Lemma submitModelDirectly_propagates this reason w :
  propagates (submitModelDirectly this reason w).
Proof.
  unfold submitModelDirectly, serializeGModel, get_root.
  repeat first
    [ apply propagates_bind; [|intros ? ?]
    | apply propagates_call; intros []; reflexivity
    | apply propagates_await; intros []; reflexivity
    | apply propagates_gets
    | apply propagates_ret
    | match goal with
      | |- context [ if ?b then _ else _ ] => destruct b
      | |- context [ match layoutKind ?c with _ => _ end ] =>
          destruct (layoutKind c)
      | |- context [ match layoutEngine ?h with _ => _ end ] =>
          destruct (layoutEngine h)
      | |- context [ match validator ?h with _ => _ end ] =>
          destruct (validator h)
      end ].
Qed.

(** *** Runs by cases on what the calls return *)

Ltac unfold_run :=
  unfold submitModel, submitModelDirectly, serializeGModel,
    Submission.incrementRevision, get_root, set_revision,
    bind, call, await, Submission.gets, Submission.modify, Submission.ret; cbn.

(* The next call whose world is already known. *)
Ltac case_call :=
  match goal with
  | |- context [ match ?x with pair _ _ => _ end ] =>
      destruct x as [? [?|?]] eqn:?
  end; cbn.

Ltac last_call_raised :=
  match goal with
  | |- exists pre ev, ?t = pre ++ [ev] /\ _ =>
      first
        [ eexists [], _; split; [reflexivity|]
        | eexists [_], _; split; [reflexivity|]
        | eexists [_; _], _; split; [reflexivity|]
        | eexists [_; _; _], _; split; [reflexivity|] ]
  end.

Lemma submitModel_run this reason w :
  let o := submitModel this reason w in
  match completion o with
  | Return acts =>
      exists r s,
        r = root (modelState (world (incrementRevision (modelFactory this w).1))) /\
        if needsClientLayout (diagramConfiguration this) then
          exists d,
            trace o = [createModel_ev (Return tt); createSchema_ev r (Return s);
                       isDirty_ev (Return d)] /\
            acts = [RequestBoundsAction s; SetDirtyStateAction d reason]
        else
          trace o = [createModel_ev (Return tt); createSchema_ev r (Return s)] /\
          acts = [SetModelAction s]
  | Throw e =>
      exists pre ev, trace o = pre ++ [ev] /\ raised ev = Some e
  end.
Proof.
  unfold_run.
  destruct (needsClientLayout (diagramConfiguration this)); cbn.
  all: repeat case_call.
  all: try (last_call_raised; reflexivity).
  all: repeat match goal with u : unit |- _ => destruct u end.
  - eexists _, _. split; [reflexivity|]. eexists. split; reflexivity.
  - eexists _, _. split; [reflexivity|]. split; reflexivity.
Qed.

Lemma submitModelDirectly_run this reason w :
  let o := submitModelDirectly this reason w in
  let cfg := diagramConfiguration this in
  match completion o with
  | Return acts =>
      exists s layoutEvs dirtyEvs dirtyActs markerEvs markerActs,
        (serializer this (root (modelState w)) w).2 = Return s /\
        layoutEvs = (if awaitsLayout this then [layout_ev (Return tt)] else []) /\
        (if needsClientLayout cfg then dirtyEvs = [] /\ dirtyActs = []
         else exists d, dirtyEvs = [isDirty_ev (Return d)] /\
                        dirtyActs = [SetDirtyStateAction d reason]) /\
        match validator this with
        | Some _ =>
            exists r markers,
              markerEvs = [validate_ev [r] LIVE (Return markers)] /\
              markerActs = [SetMarkersAction markers LIVE]
        | None => markerEvs = [] /\ markerActs = []
        end /\
        trace o =
          createSchema_ev (root (modelState w)) (Return s)
            :: layoutEvs ++ dirtyEvs ++ markerEvs /\
        acts =
          (if revision_is_0 s then SetModelAction s
           else UpdateModelAction s (animatedUpdate cfg))
            :: dirtyActs ++ markerActs
  | Throw e =>
      exists pre ev, trace o = pre ++ [ev] /\ raised ev = Some e
  end.
Proof.
  unfold awaitsLayout. unfold_run.
  destruct (layoutKind (diagramConfiguration this)),
    (layoutEngine this) as [engine|],
    (needsClientLayout (diagramConfiguration this)),
    (validator this) as [v|]; cbn.
  all: repeat case_call.
  all: try (last_call_raised; reflexivity).
  all: repeat match goal with u : unit |- _ => destruct u end.
  all: eexists _, _, _, _, _, _.
  all: split; [reflexivity|].
  all: split; [reflexivity|].
  all: split; [first [split; reflexivity | eexists; split; reflexivity]|].
  all: split; [first [split; reflexivity | eexists _, _; split; reflexivity]|].
  all: split; reflexivity.
Qed.

(** Every call either method makes is one of the five service members;
    [submitModel] makes neither of the awaited ones. *)
Lemma submitModel_members this reason w :
  Forall (fun ev => In (member ev) [createModel; createSchema; isDirty])
    (trace (submitModel this reason w)).
Proof.
  unfold_run.
  destruct (needsClientLayout (diagramConfiguration this)); cbn.
  all: repeat case_call.
  all: repeat (apply List.Forall_cons; [cbn; tauto|]); apply List.Forall_nil.
Qed.

Lemma submitModelDirectly_members this reason w :
  Forall (fun ev =>
            In (member ev) [createSchema; isDirty; validate] \/
            member ev = layout /\ awaitsLayout this = true)
    (trace (submitModelDirectly this reason w)).
Proof.
  unfold awaitsLayout. unfold_run.
  destruct (layoutKind (diagramConfiguration this)),
    (layoutEngine this) as [engine|],
    (needsClientLayout (diagramConfiguration this)),
    (validator this) as [v|]; cbn.
  all: repeat case_call.
  all: repeat (apply List.Forall_cons; [cbn; tauto|]); apply List.Forall_nil.
Qed.

(** *** The kinds of the returned actions *)

Lemma submitModel_kinds this reason w acts :
  completion (submitModel this reason w) = Return acts ->
  map kind acts =
    if needsClientLayout (diagramConfiguration this)
    then [RequestBoundsKind; SetDirtyStateKind]
    else [SetModelKind].
Proof.
  intros Hret. pose proof (submitModel_run this reason w) as Hrun.
  cbv zeta in Hrun. rewrite Hret in Hrun.
  destruct Hrun as (r & s & _ & Hrun).
  destruct (needsClientLayout (diagramConfiguration this)).
  - destruct Hrun as (d & _ & ->). reflexivity.
  - destruct Hrun as (_ & ->). reflexivity.
Qed.

Lemma submitModelDirectly_kinds this reason w acts s :
  completion (submitModelDirectly this reason w) = Return acts ->
  (serializer this (root (modelState w)) w).2 = Return s ->
  map kind acts =
    (if revision_is_0 s then SetModelKind else UpdateModelKind)
      :: (if needsClientLayout (diagramConfiguration this)
          then [] else [SetDirtyStateKind])
      ++ (match validator this with Some _ => [SetMarkersKind] | None => [] end).
Proof.
  intros Hret Hser. pose proof (submitModelDirectly_run this reason w) as Hrun.
  cbv zeta in Hrun. rewrite Hret in Hrun.
  destruct Hrun as (s' & lEvs & dEvs & dActs & mEvs & mActs & Hs & _ & Hd & Hm & _ & ->).
  rewrite Hser in Hs. injection Hs as <-.
  assert (Hdk : map kind dActs =
                if needsClientLayout (diagramConfiguration this)
                then [] else [SetDirtyStateKind]).
  { destruct (needsClientLayout (diagramConfiguration this)).
    - destruct Hd as [_ ->]. reflexivity.
    - destruct Hd as (d & _ & ->). reflexivity. }
  assert (Hmk : map kind mActs =
                match validator this with Some _ => [SetMarkersKind] | None => [] end).
  { destruct (validator this).
    - destruct Hm as (r & ms & _ & ->). reflexivity.
    - destruct Hm as [_ ->]. reflexivity. }
  cbn [map]. rewrite map_app, Hdk, Hmk.
  destruct (revision_is_0 s); reflexivity.
Qed.

Lemma revision_is_0_spec (s : @GModelRootSchema SchemaBody) :
  revision_is_0 s = true <->
  schema_revision s = Some PrimFloat.zero \/ schema_revision s = Some PrimFloat.neg_zero.
Proof.
  unfold revision_is_0. destruct (schema_revision s) as [x|].
  - rewrite strictly_equal_zero. split.
    + intros [->| ->]; [left|right]; reflexivity.
    + intros [[= ->]|[= ->]]; [left|right]; reflexivity.
  - split; [discriminate|]. intros [?|?]; discriminate.
Qed.

(** *** What a method body does to the model state *)

Lemma keeps_ret {A} (a : A) : keepsModelStateM (ret a).
Proof. intros w. reflexivity. Qed.

Lemma keeps_gets {A} (f : World -> A) : keepsModelStateM (gets f).
Proof. intros w. reflexivity. Qed.

Lemma keeps_call {A} (ev : Completion A -> Event) (f : Effect A) :
  keepsModelState f -> keepsModelStateM (call ev f).
Proof.
  intros Hf w. unfold call. specialize (Hf w).
  destruct (f w) as [w' r]. exact Hf.
Qed.

Lemma keeps_await {A} (ev : Completion A -> Event) (f : Effect A) :
  keepsModelState f -> keepsModelStateM (await ev f).
Proof.
  intros Hf w. unfold await. specialize (Hf w).
  destruct (f w) as [w' r]. exact Hf.
Qed.

Lemma keeps_bind {A B} (m : M A) (k : A -> M B) :
  keepsModelStateM m -> (forall a, keepsModelStateM (k a)) ->
  keepsModelStateM (bind m k).
Proof.
  intros Hm Hk w. rewrite world_bind.
  destruct (completion (m w)) as [a|e]; [|apply Hm].
  rewrite Hk. apply Hm.
Qed.

(** The revision update: no call, no throw, one member written. *)
Lemma incrementRevision_outcome w :
  incrementRevision w =
    mkOutcome [] []
      (mkWorld
         (mkModelState
            (mkRoot
               (Some (PrimFloat.add (default PrimFloat.zero (revision (root (modelState w))))
                                    PrimFloat.one))
               (elements (root (modelState w))))
            (others (modelState w)))
         (services w))
      (Return tt).
Proof. reflexivity. Qed.

Lemma keeps_serializeGModel this :
  (forall r, keepsModelState (serializer this r)) ->
  keepsModelStateM (serializeGModel this).
Proof.
  intros Hser. unfold serializeGModel, get_root.
  apply keeps_bind; [apply keeps_gets|].
  intros r. apply keeps_call, Hser.
Qed.

(** *** The properties the specification states *)

(** C1: [submitModel] calls [modelFactory.createModel()], updates the
    revision, calls the serializer on the model root and, when
    [needsClientLayout] is set, reads [commandStack.isDirty].  When it
    returns, these calls have returned and the list is exactly
    [[RequestBoundsAction s; SetDirtyStateAction d reason]] when
    [needsClientLayout] is set and [[SetModelAction s]] otherwise, where [s] is
    what the serializer returned for the root of the model state after the
    revision update and [d] what [commandStack.isDirty] returned in the world
    the serializer left; the run leaves the world its last call left.  When
    it throws, one of these calls has thrown that value.  It never calls the
    action dispatcher. *)
Theorem submitModel_actions this reason w :
  let o := submitModel this reason w in
  let created := modelFactory this w in
  let updated := world (incrementRevision created.1) in
  let serialized := serializer this (root (modelState updated)) updated in
  let queried := commandStack this serialized.1 in
  (forall ev, In ev (trace o) -> member ev <> dispatch) /\
  match completion o with
  | Return acts =>
      created.2 = Return tt /\
      exists s,
        serialized.2 = Return s /\
        if needsClientLayout (diagramConfiguration this) then
          exists d,
            queried.2 = Return d /\
            trace o = [createModel_ev (Return tt);
                       createSchema_ev (root (modelState updated)) (Return s);
                       isDirty_ev (Return d)] /\
            acts = [RequestBoundsAction s; SetDirtyStateAction d reason] /\
            world o = queried.1
        else
          trace o = [createModel_ev (Return tt);
                     createSchema_ev (root (modelState updated)) (Return s)] /\
          acts = [SetModelAction s] /\
          world o = serialized.1
  | Throw e =>
      (exists pre ev, trace o = pre ++ [ev] /\ raised ev = Some e) /\
      (created.2 = Throw e \/
       created.2 = Return tt /\ serialized.2 = Throw e \/
       created.2 = Return tt /\ (exists s, serialized.2 = Return s) /\
       needsClientLayout (diagramConfiguration this) = true /\
       queried.2 = Throw e)
  end.
Proof.
  cbv zeta. split.
  { intros ev Hin.
    pose proof (submitModel_members this reason w) as Hmem.
    rewrite List.Forall_forall in Hmem. specialize (Hmem ev Hin).
    cbn in Hmem. intros Heq. rewrite Heq in Hmem.
    destruct Hmem as [?|[?|[?|[]]]]; discriminate. }
  unfold_run.
  destruct (needsClientLayout (diagramConfiguration this)); cbn.
  all: repeat case_call.
  all: repeat match goal with u : unit |- _ => destruct u end.
  all: try (split; [last_call_raised; reflexivity|]).
  (* a call has thrown *)
  all: try solve [ left; reflexivity
                 | right; left; split; reflexivity
                 | right; right; repeat split; eauto ].
  (* every call has returned *)
  - split; [reflexivity|]. eexists. split; [reflexivity|].
    eexists. repeat split.
  - split; [reflexivity|]. eexists. repeat split.
Qed.

(** C2: [submitModel] awaits nothing.  [submitModelDirectly] awaits the
    call [layoutEngine.layout()], made in the world the serializer left, when
    [layoutKind] is [AUTOMATIC] and a layout engine is bound, then the call
    [validator.validate([root], LIVE)], made in the world left by the steps
    before it, when a validator is bound, and nothing else: what a run
    awaited is an initial part of these calls (a run ends early only by a
    thrown value), and all of them when the run returns, leaving the world
    the last of its calls left.  Every awaited call is a call of the run. *)
Theorem awaited_steps this reason w :
  awaits (submitModel this reason w) = [] /\
  (awaitsLayout this = true <->
   layoutKind (diagramConfiguration this) = AUTOMATIC /\ is_Some (layoutEngine this)) /\
  let o := submitModelDirectly this reason w in
  let cfg := diagramConfiguration this in
  let serialized := serializer this (root (modelState w)) w in
  let laidOut :=
    match layoutKind cfg, layoutEngine this with
    | AUTOMATIC, Some engine => engine serialized.1
    | _, _ => (serialized.1, Return tt)
    end in
  let queried :=
    if needsClientLayout cfg then laidOut.1 else (commandStack this laidOut.1).1 in
  let expected :=
    (if awaitsLayout this then [layout_ev laidOut.2] else [])
    ++ match validator this with
       | Some v =>
           [validate_ev [root (modelState queried)] LIVE
              (v [root (modelState queried)] LIVE queried).2]
       | None => []
       end in
  let expectedMembers :=
    (if awaitsLayout this then [layout] else [])
    ++ (match validator this with Some _ => [validate] | None => [] end) in
  (exists rest, expected = awaits o ++ rest) /\
  (forall acts, completion o = Return acts -> awaits o = expected) /\
  (forall acts, completion o = Return acts ->
                world o = match validator this with
                          | Some v => (v [root (modelState queried)] LIVE queried).1
                          | None => queried
                          end) /\
  (forall ev, In ev (awaits o) -> In ev (trace o)) /\
  (exists rest, expectedMembers = awaitedMembers o ++ rest) /\
  (forall acts, completion o = Return acts -> awaitedMembers o = expectedMembers).
Proof.
  split; [|split].
  - unfold_run.
    destruct (needsClientLayout (diagramConfiguration this)); cbn.
    all: repeat case_call; reflexivity.
  - unfold awaitsLayout.
    destruct (layoutKind (diagramConfiguration this)),
      (layoutEngine this) as [engine|]; split;
      try discriminate; try (intros [? [? ?]]; discriminate); eauto.
    all: intros [? ?]; discriminate.
  - cbv zeta. unfold awaitedMembers, awaitsLayout. unfold_run.
    destruct (layoutKind (diagramConfiguration this)),
      (layoutEngine this) as [engine|],
      (needsClientLayout (diagramConfiguration this)),
      (validator this) as [v|]; cbn.
    all: repeat case_call.
    all: split; [eexists; reflexivity|].
    all: split; [intros acts; first [discriminate | reflexivity]|].
    all: split; [intros acts; first [discriminate | reflexivity]|].
    all: split; [intros ev Hev; cbn in *; tauto|].
    all: split; [eexists; reflexivity|].
    all: intros acts; first [discriminate | reflexivity].
Qed.

(** C7: neither method handles a thrown value.  A method completes by
    throwing [e] exactly when one of the calls it made threw [e], and a call
    that throws is the last call of the run. *)
Theorem errors_propagate this reason w :
  (forall e, completion (submitModel this reason w) = Throw e <->
             exists ev, In ev (trace (submitModel this reason w)) /\
                        raised ev = Some e) /\
  (forall e, completion (submitModelDirectly this reason w) = Throw e <->
             exists ev, In ev (trace (submitModelDirectly this reason w)) /\
                        raised ev = Some e) /\
  (forall pre ev post,
      trace (submitModel this reason w) = pre ++ ev :: post ->
      raised ev <> None -> post = []) /\
  (forall pre ev post,
      trace (submitModelDirectly this reason w) = pre ++ ev :: post ->
      raised ev <> None -> post = []).
Proof.
  destruct (propagates_spec _ (submitModel_propagates this reason w)) as [H1 H2].
  destruct (propagates_spec _ (submitModelDirectly_propagates this reason w))
    as [H3 H4].
  repeat split; first [apply H1 | apply H3 | exact H2 | exact H4].
Qed.

(** C8, as the code has it: provided the serializer and the command stack
    leave the model state alone, the model state after [submitModel] is the
    one [modelFactory.createModel()] left, with [root.revision] replaced by
    the binary64 sum [(revision ?? 0) + 1] and nothing else changed (and is
    the one [createModel] left if that call throws).  The new revision is
    [n + 1] when the revision [createModel] left is the integer [n] with
    [0 <= n] and [n + 1 < 2 ^ 53], or is absent ([n = 0]).  Provided the
    services it calls leave the model state alone, [submitModelDirectly]
    leaves it as it was. *)
Theorem model_state_frame this reason w :
  ((forall r, keepsModelState (serializer this r)) ->
   keepsModelState (commandStack this) ->
   let created := modelState (modelFactory this w).1 in
   let after := modelState (world (submitModel this reason w)) in
   match (modelFactory this w).2 with
   | Return _ =>
       after =
         mkModelState
           (mkRoot
              (Some (PrimFloat.add (default PrimFloat.zero (revision (root created)))
                                   PrimFloat.one))
              (elements (root created)))
           (others created) /\
       forall n : Z,
         (0 <= n)%Z -> (n + 1 < 2 ^ 53)%Z ->
         revision (root created) = Some (numberOfZ n) \/
         n = 0%Z /\ revision (root created) = None ->
         revision (root after) = Some (numberOfZ (n + 1))
   | Throw _ => after = created
   end) /\
  ((forall r, keepsModelState (serializer this r)) ->
   keepsModelState (commandStack this) ->
   (forall engine, layoutEngine this = Some engine -> keepsModelState engine) ->
   (forall v, validator this = Some v ->
              forall elems why, keepsModelState (v elems why)) ->
   modelState (world (submitModelDirectly this reason w)) = modelState w).
Proof.
  split.
  - intros Hser Hcs. cbv zeta. unfold submitModel.
    rewrite world_bind, completion_call, world_call.
    destruct (modelFactory this w) as [w1 [[]|e]]; cbn [fst snd]; [|reflexivity].
    rewrite world_bind, incrementRevision_outcome. cbn [completion world].
    match goal with
    | |- context [world (bind ?m ?k ?w')] =>
        assert (Hk : modelState (world (bind m k w')) = modelState w')
    end.
    { apply keeps_bind; [apply keeps_serializeGModel, Hser|].
      intros s. destruct (needsClientLayout (diagramConfiguration this)).
      - apply keeps_bind; [apply keeps_call, Hcs|]. intros d. apply keeps_ret.
      - apply keeps_ret. }
    rewrite Hk. split; [reflexivity|].
    intros n Hn Hb Hrev. cbn [modelState root revision].
    f_equal. apply incremented_revision; assumption.
  - intros Hser Hcs Hlay Hval. revert w.
    change (keepsModelStateM (submitModelDirectly this reason)).
    unfold submitModelDirectly.
    apply keeps_bind; [apply keeps_serializeGModel, Hser|]. intros s.
    apply keeps_bind.
    { destruct (layoutKind (diagramConfiguration this)); try apply keeps_ret.
      destruct (layoutEngine this) as [engine|] eqn:He; [|apply keeps_ret].
      apply keeps_await, (Hlay engine eq_refl). }
    intros _. cbv zeta. apply keeps_bind.
    { destruct (needsClientLayout (diagramConfiguration this)); cbn.
      - apply keeps_ret.
      - apply keeps_bind; [apply keeps_call, Hcs|]. intros d. apply keeps_ret. }
    intros acts. apply keeps_bind; [|intros; apply keeps_ret].
    destruct (validator this) as [v|] eqn:Hv; [|apply keeps_ret].
    unfold get_root.
    apply keeps_bind; [apply keeps_gets|]. intros r.
    apply keeps_bind; [apply keeps_await, (Hval v eq_refl)|].
    intros ms. apply keeps_ret.
Qed.

(** C3, as the code has it: for runs that return, the kinds of the
    actions of [submitModel] are fixed by [needsClientLayout] alone, and
    the kinds of the actions of [submitModelDirectly] are fixed by
    [needsClientLayout], by whether a validator is bound, and by whether the
    revision of the serialized root is 0 (as [===] has it: the number 0 or
    -0).  Whether a layout engine is bound does not matter to them. *)
Theorem emitted_kinds_determined this1 this2 reason1 reason2 w1 w2 :
  needsClientLayout (diagramConfiguration this1) =
    needsClientLayout (diagramConfiguration this2) ->
  (forall acts1 acts2,
      completion (submitModel this1 reason1 w1) = Return acts1 ->
      completion (submitModel this2 reason2 w2) = Return acts2 ->
      emittedKinds (submitModel this1 reason1 w1) =
        emittedKinds (submitModel this2 reason2 w2)) /\
  (forall acts1 acts2 s1 s2,
      completion (submitModelDirectly this1 reason1 w1) = Return acts1 ->
      completion (submitModelDirectly this2 reason2 w2) = Return acts2 ->
      (is_Some (validator this1) <-> is_Some (validator this2)) ->
      (serializer this1 (root (modelState w1)) w1).2 = Return s1 ->
      (serializer this2 (root (modelState w2)) w2).2 = Return s2 ->
      (schema_revision s1 = Some PrimFloat.zero \/
       schema_revision s1 = Some PrimFloat.neg_zero <->
       schema_revision s2 = Some PrimFloat.zero \/
       schema_revision s2 = Some PrimFloat.neg_zero) ->
      emittedKinds (submitModelDirectly this1 reason1 w1) =
        emittedKinds (submitModelDirectly this2 reason2 w2)).
Proof.
  intros Hncl. split.
  - intros acts1 acts2 H1 H2. unfold emittedKinds. rewrite H1, H2.
    rewrite (submitModel_kinds _ _ _ _ H1), (submitModel_kinds _ _ _ _ H2), Hncl.
    reflexivity.
  - intros acts1 acts2 s1 s2 H1 H2 Hval Hs1 Hs2 Hrev.
    unfold emittedKinds. rewrite H1, H2.
    rewrite (submitModelDirectly_kinds _ _ _ _ _ H1 Hs1),
      (submitModelDirectly_kinds _ _ _ _ _ H2 Hs2), Hncl.
    assert (Hr : revision_is_0 s1 = revision_is_0 s2).
    { apply eq_true_iff_eq. rewrite !revision_is_0_spec. exact Hrev. }
    rewrite Hr. f_equal. f_equal.
    destruct (validator this1), (validator this2); try reflexivity.
    + destruct Hval as [Hval _].
      destruct (Hval (ltac:(eauto))) as [? ?]; discriminate.
    + destruct Hval as [_ Hval].
      destruct (Hval (ltac:(eauto))) as [? ?]; discriminate.
Qed.

(** C9: the list [submitModelDirectly] returns starts with the action
    that sets the model: [SetModelAction] when the revision of the
    serialized root is 0 (the number 0 or -0, which [===] identifies),
    [UpdateModelAction] with [animate] set to
    [animatedUpdate] otherwise.  Then comes a [SetDirtyStateAction] (what
    [commandStack.isDirty] returned, and the given reason) exactly when
    [needsClientLayout] is off, then a [SetMarkersAction] (what the
    validator returned, reason [LIVE]) exactly when a validator is bound:
    between one and three actions.  The method returns unless one of its
    calls throws. *)
Theorem submitModelDirectly_actions this reason w :
  let o := submitModelDirectly this reason w in
  let cfg := diagramConfiguration this in
  match completion o with
  | Return acts =>
      exists s first dirtyActs markerActs,
        (serializer this (root (modelState w)) w).2 = Return s /\
        acts = first :: dirtyActs ++ markerActs /\
        ((schema_revision s = Some PrimFloat.zero \/
          schema_revision s = Some PrimFloat.neg_zero) /\
         first = SetModelAction s \/
         ~ (schema_revision s = Some PrimFloat.zero \/
            schema_revision s = Some PrimFloat.neg_zero) /\
         first = UpdateModelAction s (animatedUpdate cfg)) /\
        (if needsClientLayout cfg then dirtyActs = []
         else exists d, In (isDirty_ev (Return d)) (trace o) /\
                        dirtyActs = [SetDirtyStateAction d reason]) /\
        match validator this with
        | Some _ =>
            exists r markers,
              In (validate_ev [r] LIVE (Return markers)) (trace o) /\
              markerActs = [SetMarkersAction markers LIVE]
        | None => markerActs = []
        end /\
        1 <= length acts <= 3
  | Throw e => exists ev, In ev (trace o) /\ raised ev = Some e
  end.
Proof.
  pose proof (submitModelDirectly_run this reason w) as Hrun.
  cbv zeta in *.
  destruct (completion (submitModelDirectly this reason w)) as [acts|e].
  - destruct Hrun as (s & lEvs & dEvs & dActs & mEvs & mActs
                      & Hs & _ & Hd & Hm & Htr & ->).
    exists s, (if revision_is_0 s then SetModelAction s
               else UpdateModelAction s (animatedUpdate (diagramConfiguration this))),
      dActs, mActs.
    split; [exact Hs|]. split; [reflexivity|]. split.
    { destruct (revision_is_0 s) eqn:Hr.
      - left. split; [apply revision_is_0_spec, Hr|reflexivity].
      - right. split; [|reflexivity].
        intros H0. apply revision_is_0_spec in H0. congruence. }
    assert (Hdlen : length dActs <= 1 /\
                    (if needsClientLayout (diagramConfiguration this)
                     then dActs = []
                     else exists d, In (isDirty_ev (Return d))
                                       (trace (submitModelDirectly this reason w)) /\
                                    dActs = [SetDirtyStateAction d reason])).
    { destruct (needsClientLayout (diagramConfiguration this)).
      - destruct Hd as [_ ->]. split; [cbn; lia|reflexivity].
      - destruct Hd as (d & -> & ->). split; [cbn; lia|].
        exists d. split; [|reflexivity]. rewrite Htr.
        right. apply in_or_app; right. apply in_or_app; left. left. reflexivity. }
    assert (Hmlen : length mActs <= 1 /\
                    match validator this with
                    | Some _ =>
                        exists r markers,
                          In (validate_ev [r] LIVE (Return markers))
                             (trace (submitModelDirectly this reason w)) /\
                          mActs = [SetMarkersAction markers LIVE]
                    | None => mActs = []
                    end).
    { destruct (validator this).
      - destruct Hm as (r & ms & -> & ->). split; [cbn; lia|].
        exists r, ms. split; [|reflexivity]. rewrite Htr.
        right. apply in_or_app; right. apply in_or_app; right. left. reflexivity.
      - destruct Hm as [_ ->]. split; [cbn; lia|reflexivity]. }
    destruct Hdlen as [Hdl Hd'], Hmlen as [Hml Hm'].
    split; [exact Hd'|]. split; [exact Hm'|].
    cbn [length]. rewrite length_app. lia.
  - destruct Hrun as (pre & ev & Htr & Hev). exists ev. split; [|exact Hev].
    rewrite Htr. apply in_or_app; right; left; reflexivity.
Qed.

(** C10: with the workflow configuration ([needsClientLayout] set,
    [layoutKind = MANUAL]), whatever the services are, [submitModel]
    returns a [RequestBoundsAction] followed by a [SetDirtyStateAction]
    (unless a call throws), and [submitModelDirectly] never calls the layout
    engine and returns no [SetDirtyStateAction]. *)
Theorem workflow_submission (types : ModelTypes.t) (DefaultTypes_EDGE : string)
    (getDefaultMapping : Store.Heap -> Store.Ref * Store.Heap)
    (ser : GModelRoot -> Effect GModelRootSchema) (fac : Effect unit)
    (lay : option (Effect unit)) (cs : Effect bool)
    (val : option (list GModelRoot -> MarkersReason -> Effect (list Marker)))
    reason w :
  let this : Handler :=
    mkHandler
      (Workflow.WorkflowDiagramConfiguration types DefaultTypes_EDGE getDefaultMapping)
      ser fac lay cs val in
  match completion (submitModel this reason w) with
  | Return acts =>
      exists s d, acts = [RequestBoundsAction s; SetDirtyStateAction d reason]
  | Throw e =>
      exists ev, In ev (trace (submitModel this reason w)) /\ raised ev = Some e
  end /\
  (forall ev, In ev (trace (submitModelDirectly this reason w)) ->
              member ev <> layout) /\
  (forall acts, completion (submitModelDirectly this reason w) = Return acts ->
                forall a, In a acts -> kind a <> SetDirtyStateKind).
Proof.
  intros this. split; [|split].
  - pose proof (submitModel_run this reason w) as Hrun. cbv zeta in Hrun.
    destruct (completion (submitModel this reason w)) as [acts|e].
    + destruct Hrun as (r & s & _ & d & _ & ->). exists s, d. reflexivity.
    + destruct Hrun as (pre & ev & Htr & Hev). exists ev. split; [|exact Hev].
      rewrite Htr. apply in_or_app; right; left; reflexivity.
  - intros ev Hin.
    pose proof (submitModelDirectly_members this reason w) as Hmem.
    rewrite List.Forall_forall in Hmem.
    destruct (Hmem ev Hin) as [Hm|[_ Hlay]].
    + intros Heq. rewrite Heq in Hm. cbn in Hm.
      destruct Hm as [?|[?|[?|[]]]]; discriminate.
    + discriminate.
  - intros acts Hret a Hin Hkind.
    assert (Hk : In SetDirtyStateKind (map kind acts)).
    { rewrite <- Hkind. apply in_map, Hin. }
    destruct (ser (root (modelState w)) w) as [w' [s|e]] eqn:Hser.
    + rewrite (submitModelDirectly_kinds this reason w acts s Hret) in Hk
        by (subst this; cbn [serializer]; rewrite Hser; reflexivity).
      cbn in Hk. destruct (revision_is_0 s), val; cbn in Hk;
        intuition discriminate.
    + pose proof (submitModelDirectly_run this reason w) as Hrun.
      cbv zeta in Hrun. rewrite Hret in Hrun.
      destruct Hrun as (s & _ & _ & _ & _ & _ & Hs & _).
      subst this. cbn [serializer] in Hs. rewrite Hser in Hs. discriminate.
Qed.

(** *** Further properties of the two methods *)

(** The model state [submitModel] leaves, without assumptions on
    [createModel]. *)
Lemma submitModel_modelState this reason w :
  (forall r, keepsModelState (serializer this r)) ->
  keepsModelState (commandStack this) ->
  modelState (world (submitModel this reason w)) =
    match (modelFactory this w).2 with
    | Return _ => modelState (world (incrementRevision (modelFactory this w).1))
    | Throw _ => modelState (modelFactory this w).1
    end.
Proof.
  intros Hser Hcs. unfold submitModel.
  rewrite world_bind, completion_call, world_call.
  destruct (modelFactory this w) as [w1 [[]|e]]; cbn [fst snd]; [|reflexivity].
  rewrite world_bind, incrementRevision_outcome. cbn [completion world].
  apply (keeps_bind (serializeGModel this)).
  - apply keeps_serializeGModel, Hser.
  - intros s. destruct (needsClientLayout (diagramConfiguration this)).
    + apply keeps_bind; [apply keeps_call, Hcs|]. intros d. apply keeps_ret.
    + apply keeps_ret.
Qed.

Lemma submitModel_returns_createModel this reason w acts :
  completion (submitModel this reason w) = Return acts ->
  (modelFactory this w).2 = Return tt.
Proof.
  unfold submitModel. rewrite completion_bind, completion_call.
  destruct (modelFactory this w).2 as [[]|e]; [reflexivity|discriminate].
Qed.

(** X8: the calls of [submitModel], in order.  It calls
    [modelFactory.createModel()] first, then the serializer, then (only when
    [needsClientLayout] is set) [commandStack.isDirty], each at most once.  A
    run makes an initial part of this sequence, and the whole of it when it
    returns. *)
Theorem submitModel_call_sequence this reason w :
  let o := submitModel this reason w in
  let expected :=
    [createModel; createSchema]
    ++ (if needsClientLayout (diagramConfiguration this) then [isDirty] else []) in
  head (map member (trace o)) = Some createModel /\
  (exists rest, expected = map member (trace o) ++ rest) /\
  (forall acts, completion o = Return acts -> map member (trace o) = expected).
Proof.
  cbv zeta. unfold_run.
  destruct (needsClientLayout (diagramConfiguration this)); cbn.
  all: repeat case_call.
  all: split; [reflexivity|].
  all: split; [eexists; reflexivity|].
  all: intros acts; first [discriminate | reflexivity].
Qed.

(** X9: the calls of [submitModelDirectly], in order.  It calls the
    serializer first, then the layout engine (when [layoutKind] is
    [AUTOMATIC] and one is bound), then [commandStack.isDirty] (when
    [needsClientLayout] is off), then the validator (when one is bound), each
    at most once, and never the model factory.  A run makes an initial part
    of this sequence, and the whole of it when it returns. *)
Theorem submitModelDirectly_call_sequence this reason w :
  let o := submitModelDirectly this reason w in
  let expected :=
    createSchema
    :: (if awaitsLayout this then [layout] else [])
    ++ (if needsClientLayout (diagramConfiguration this) then [] else [isDirty])
    ++ (match validator this with Some _ => [validate] | None => [] end) in
  head (map member (trace o)) = Some createSchema /\
  (exists rest, expected = map member (trace o) ++ rest) /\
  (forall acts, completion o = Return acts -> map member (trace o) = expected).
Proof.
  cbv zeta. unfold awaitsLayout. unfold_run.
  destruct (layoutKind (diagramConfiguration this)),
    (layoutEngine this) as [engine|],
    (needsClientLayout (diagramConfiguration this)),
    (validator this) as [v|]; cbn.
  all: repeat case_call.
  all: split; [reflexivity|].
  all: split; [eexists; reflexivity|].
  all: intros acts; first [discriminate | reflexivity].
Qed.

(** X10: [submitModel] serializes after the revision update.  The root it
    passes to the serializer holds the elements [createModel] left and the
    revision [(revision ?? 0) + 1], a binary64 sum; so it never serializes a
    root without a revision.  When the revision [createModel] left is absent
    or an integer [n] with [0 <= n] and [n + 1 < 2 ^ 53], the serialized
    revision is [n + 1], which [===] tells from 0. *)
Theorem submitModel_serializes_new_revision this reason w :
  let created := root (modelState (modelFactory this w).1) in
  Forall (fun ev =>
            match ev with
            | createSchema_ev gRoot _ =>
                revision gRoot =
                  Some (PrimFloat.add (default PrimFloat.zero (revision created))
                                      PrimFloat.one) /\
                elements gRoot = elements created /\
                revision gRoot <> None /\
                forall n : Z,
                  (0 <= n)%Z -> (n + 1 < 2 ^ 53)%Z ->
                  revision created = Some (numberOfZ n) \/
                  n = 0%Z /\ revision created = None ->
                  revision gRoot = Some (numberOfZ (n + 1)) /\
                  PrimFloat.eqb (numberOfZ (n + 1)) PrimFloat.zero = false
            | _ => True
            end)
    (trace (submitModel this reason w)).
Proof.
  cbv zeta. unfold_run.
  destruct (needsClientLayout (diagramConfiguration this)); cbn.
  all: repeat case_call.
  all: repeat (apply List.Forall_cons;
               [first [exact I
                      | cbn [revision elements];
                        split; [reflexivity|];
                        split; [reflexivity|];
                        split; [discriminate|];
                        intros n Hn Hb Hr;
                        split; [f_equal; apply incremented_revision; assumption
                               |apply numberOfZ_not_zero; lia]]|]).
  all: apply List.Forall_nil.
Qed.

(** X11: what the validator is asked.  Every call of the validator that
    [submitModelDirectly] makes is for live validation ([MarkersReason.LIVE],
    never [BATCH]) of a list of exactly one element, a model root. *)
Theorem validator_called_live_on_root this reason w :
  Forall (fun ev =>
            match ev with
            | validate_ev elems why _ => why = LIVE /\ exists gRoot, elems = [gRoot]
            | _ => True
            end)
    (trace (submitModelDirectly this reason w)).
Proof.
  unfold_run.
  destruct (layoutKind (diagramConfiguration this)),
    (layoutEngine this) as [engine|],
    (needsClientLayout (diagramConfiguration this)),
    (validator this) as [v|]; cbn.
  all: repeat case_call.
  all: repeat (apply List.Forall_cons;
               [first [exact I | split; [reflexivity|eexists; reflexivity]]|]).
  all: apply List.Forall_nil.
Qed.

(** X12: the root [submitModelDirectly] sends is serialized before layout.
    The first action of the returned list is fixed by what the serializer
    returns for the model state on entry and by [animatedUpdate]: two
    handlers that agree on these return the same first action from the same
    state, whatever their layout engines, validators, command stacks, other
    configuration members and the reasons given. *)
Theorem first_action_ignores_layout this1 this2 reason1 reason2 w acts1 acts2 :
  serializer this1 (root (modelState w)) w = serializer this2 (root (modelState w)) w ->
  animatedUpdate (diagramConfiguration this1) = animatedUpdate (diagramConfiguration this2) ->
  completion (submitModelDirectly this1 reason1 w) = Return acts1 ->
  completion (submitModelDirectly this2 reason2 w) = Return acts2 ->
  head acts1 = head acts2 /\ head acts1 <> None.
Proof.
  intros Hser Hanim H1 H2.
  pose proof (submitModelDirectly_run this1 reason1 w) as R1.
  pose proof (submitModelDirectly_run this2 reason2 w) as R2.
  cbv zeta in R1, R2. rewrite H1 in R1. rewrite H2 in R2.
  destruct R1 as (s1 & ? & ? & ? & ? & ? & Hs1 & _ & _ & _ & _ & ->).
  destruct R2 as (s2 & ? & ? & ? & ? & ? & Hs2 & _ & _ & _ & _ & ->).
  rewrite Hser, Hs2 in Hs1. injection Hs1 as ->.
  cbn [head]. rewrite Hanim. split; [reflexivity|discriminate].
Qed.

(** X13: direct submission after [submitModel] is an update.  Suppose the
    revision [createModel] leaves is absent or an integer [n] with [0 <= n]
    and [n + 1 < 2 ^ 53], the serializer copies the revision of the root it
    is given, and the serializer and the command stack leave the model state
    alone.  If [submitModel] returns and [submitModelDirectly] then runs on
    the state it left and returns, the first action of the latter is an
    [UpdateModelAction] (not a [SetModelAction]) whose root has the revision
    [n + 1] that [submitModel] has set. *)
Theorem direct_submission_after_submitModel this reason1 reason2 w acts1 acts2 (n : Z) :
  (0 <= n)%Z -> (n + 1 < 2 ^ 53)%Z ->
  revision (root (modelState (modelFactory this w).1)) = Some (numberOfZ n) \/
  n = 0%Z /\ revision (root (modelState (modelFactory this w).1)) = None ->
  (forall r w' w'' s, serializer this r w' = (w'', Return s) ->
                      schema_revision s = revision r) ->
  (forall r, keepsModelState (serializer this r)) ->
  keepsModelState (commandStack this) ->
  completion (submitModel this reason1 w) = Return acts1 ->
  completion (submitModelDirectly this reason2 (world (submitModel this reason1 w))) =
    Return acts2 ->
  exists s rest,
    acts2 = UpdateModelAction s (animatedUpdate (diagramConfiguration this)) :: rest /\
    schema_revision s = Some (numberOfZ (n + 1)).
Proof.
  intros Hn Hb Hcreated Hcopy Hser Hcs H1 H2.
  pose proof (submitModel_modelState this reason1 w Hser Hcs) as Hms.
  rewrite (submitModel_returns_createModel this reason1 w acts1 H1) in Hms.
  rewrite incrementRevision_outcome in Hms. cbn [world] in Hms.
  set (w' := world (submitModel this reason1 w)) in *.
  pose proof (submitModelDirectly_run this reason2 w') as R.
  cbv zeta in R. rewrite H2 in R.
  destruct R as (s & ? & ? & dActs & ? & mActs & Hs & _ & _ & _ & _ & ->).
  assert (Hrev : schema_revision s = revision (root (modelState w'))).
  { destruct (serializer this (root (modelState w')) w') as [w'' c] eqn:E.
    cbn in Hs. subst c. exact (Hcopy _ _ _ _ E). }
  rewrite Hms in Hrev. cbn [root revision] in Hrev.
  rewrite (incremented_revision n _ Hn Hb Hcreated) in Hrev.
  exists s, (dActs ++ mActs). split; [|exact Hrev].
  assert (Hnot0 : revision_is_0 s = false).
  { unfold revision_is_0. rewrite Hrev. apply numberOfZ_not_zero. lia. }
  rewrite Hnot0. reflexivity.
Qed.

(** X14: the reason is passed to no service.  The calls a method makes,
    their arguments and results, the state it leaves and the kinds of the
    actions it returns are the same for every reason given; the reason only
    ends up in the [SetDirtyStateAction]. *)
Theorem reason_reaches_no_service this reason1 reason2 w :
  trace (submitModel this reason1 w) = trace (submitModel this reason2 w) /\
  world (submitModel this reason1 w) = world (submitModel this reason2 w) /\
  emittedKinds (submitModel this reason1 w) = emittedKinds (submitModel this reason2 w) /\
  trace (submitModelDirectly this reason1 w) = trace (submitModelDirectly this reason2 w) /\
  world (submitModelDirectly this reason1 w) = world (submitModelDirectly this reason2 w) /\
  emittedKinds (submitModelDirectly this reason1 w) =
    emittedKinds (submitModelDirectly this reason2 w).
Proof.
  unfold emittedKinds.
  split; [|split; [|split; [|split; [|split]]]].
  1-3: unfold_run;
       destruct (needsClientLayout (diagramConfiguration this)); cbn;
       repeat case_call; reflexivity.
  all: unfold_run;
       destruct (layoutKind (diagramConfiguration this)),
         (layoutEngine this) as [engine|],
         (needsClientLayout (diagramConfiguration this)),
         (validator this) as [v|]; cbn;
       repeat case_call;
       try match goal with |- context [ revision_is_0 ?s ] => destruct (revision_is_0 s) end;
       reflexivity.
Qed.

(** X15: direct submission under the workflow configuration.  Whatever the
    services are, a run of [submitModelDirectly] that returns gives the
    action that sets the model, followed by a [SetMarkersAction] exactly when
    a validator is bound; an [UpdateModelAction] is animated.  The run returns
    unless one of its calls throws. *)
Theorem workflow_direct_submission (types : ModelTypes.t) (DefaultTypes_EDGE : string)
    (getDefaultMapping : Store.Heap -> Store.Ref * Store.Heap)
    (ser : GModelRoot -> Effect GModelRootSchema) (fac : Effect unit)
    (lay : option (Effect unit)) (cs : Effect bool)
    (val : option (list GModelRoot -> MarkersReason -> Effect (list Marker)))
    reason w :
  let this : Handler :=
    mkHandler
      (Workflow.WorkflowDiagramConfiguration types DefaultTypes_EDGE getDefaultMapping)
      ser fac lay cs val in
  match completion (submitModelDirectly this reason w) with
  | Return acts =>
      exists s first,
        (first = SetModelAction s \/ first = UpdateModelAction s true) /\
        match val with
        | Some _ => exists markers, acts = [first; SetMarkersAction markers LIVE]
        | None => acts = [first]
        end
  | Throw e =>
      exists ev, In ev (trace (submitModelDirectly this reason w)) /\ raised ev = Some e
  end.
Proof.
  intros this.
  pose proof (submitModelDirectly_run this reason w) as R. cbv zeta in R.
  destruct (completion (submitModelDirectly this reason w)) as [acts|e].
  2:{ destruct R as (pre & ev & Htr & Hev). exists ev. split; [|exact Hev].
      rewrite Htr. apply in_or_app; right; left; reflexivity. }
  destruct R as (s & ? & ? & dActs & ? & mActs & _ & _ & Hd & Hm & _ & ->).
  subst this. cbn in Hd, Hm |- *. destruct Hd as [_ ->].
  exists s.
  exists (if revision_is_0 s then SetModelAction s else UpdateModelAction s true).
  split.
  - destruct (revision_is_0 s); [left|right]; reflexivity.
  - destruct val.
    + destruct Hm as (r & ms & _ & ->). exists ms. reflexivity.
    + destruct Hm as [_ ->]. reflexivity.
Qed.

(** X16: the revision counts the submissions.  Suppose the model factory
    returns and keeps the revision of the root, and the serializer and the
    command stack leave the model state alone.  Then one call of
    [submitModel] leaves the revision at the binary64 sum
    [(revision ?? 0) + 1], whether or not the serializer or the command stack
    throws.  From a revision that is absent or an integer [n] with [0 <= n]
    and [n + 2 < 2 ^ 53], one call leaves it at [n + 1] and two calls in a row
    leave it at [n + 2]. *)
Theorem revision_counts_submissions this reason1 reason2 w (n : Z) :
  (forall w', (modelFactory this w').2 = Return tt) ->
  (forall w', revision (root (modelState (modelFactory this w').1)) =
              revision (root (modelState w'))) ->
  (forall r, keepsModelState (serializer this r)) ->
  keepsModelState (commandStack this) ->
  let once := world (submitModel this reason1 w) in
  let twice := world (submitModel this reason2 once) in
  revision (root (modelState once)) =
    Some (PrimFloat.add (default PrimFloat.zero (revision (root (modelState w))))
                        PrimFloat.one) /\
  ((0 <= n)%Z -> (n + 2 < 2 ^ 53)%Z ->
   revision (root (modelState w)) = Some (numberOfZ n) \/
   n = 0%Z /\ revision (root (modelState w)) = None ->
   revision (root (modelState once)) = Some (numberOfZ (n + 1)) /\
   revision (root (modelState twice)) = Some (numberOfZ (n + 2))).
Proof.
  intros Hret Hrev Hser Hcs once twice.
  assert (Hone : forall reason w0,
             revision (root (modelState (world (submitModel this reason w0)))) =
               Some (PrimFloat.add
                       (default PrimFloat.zero (revision (root (modelState w0))))
                       PrimFloat.one)).
  { intros reason w0.
    rewrite (submitModel_modelState this reason w0 Hser Hcs), Hret.
    rewrite incrementRevision_outcome. cbn [world modelState root revision].
    rewrite Hrev. reflexivity. }
  split; [apply Hone|].
  intros Hn Hb Hw.
  assert (H1 : revision (root (modelState once)) = Some (numberOfZ (n + 1))).
  { unfold once. rewrite Hone. f_equal. apply incremented_revision; [lia|lia|exact Hw]. }
  split; [exact H1|].
  unfold twice. rewrite Hone, H1.
  f_equal. replace (n + 2)%Z with (n + 1 + 1)%Z by lia.
  apply incremented_revision; [lia|lia|left; reflexivity].
Qed.

End Properties.

(** * The properties on concrete runs *)

Section Runs.

Import Submission.

Import Submission.Example.

Example submitModel_with_client_layout :
  completion (submitModel manualClient (Some "operation") (world None true)) =
    Return [ RequestBoundsAction (mkSchema (Some 1%float) ["task1"; "task2"]);
             SetDirtyStateAction true (Some "operation") ].
Proof. reflexivity. Qed.

Example submitModel_without_client_layout :
  completion (submitModel manualServer None (world (Some 4%float) false)) =
    Return [ SetModelAction (mkSchema (Some 5%float) ["task1"; "task2"]) ].
Proof. reflexivity. Qed.

Example submitModelDirectly_all_three :
  completion (submitModelDirectly automatic (Some "undo") (world (Some 2%float) true)) =
    Return [ UpdateModelAction (mkSchema (Some 2%float) ["task1"; "task2"]) false;
             SetDirtyStateAction true (Some "undo");
             SetMarkersAction ["task1"; "task2"] LIVE ].
Proof. reflexivity. Qed.

Example submitModelDirectly_awaits :
  awaitedMembers (submitModelDirectly automatic None (world None false)) =
    [layout; validate].
Proof. reflexivity. Qed.

Example submitModel_serializer_throws :
  completion (submitModel unserializable None (world None false)) =
    Throw "cannot serialize".
Proof. reflexivity. Qed.

End Runs.

(** C3 as stated fails: two runs of [submitModelDirectly] of one handler (so
    with the same flags, no validator and no layout engine), on model states
    that differ in the revision only, return actions of different kinds. *)
Lemma kinds_depend_on_revision :
  Submission.emittedKinds
    (Submission.submitModelDirectly
       Submission.Example.manualClient
       None (Submission.Example.world (Some 0%float) false))
  <>
  Submission.emittedKinds
    (Submission.submitModelDirectly
       Submission.Example.manualClient
       None (Submission.Example.world (Some 1%float) false)).
Proof. vm_compute. discriminate. Qed.

(** [emitted_kinds_determined] on two runs of [submitModelDirectly]: handlers
    with different layout kinds and layout engines, different reasons, dirty
    flags and (non-zero) revisions. *)
Lemma emitted_kinds_determined_example :
  Submission.emittedKinds
    (Submission.submitModelDirectly
       Submission.Example.manualServer
       None (Submission.Example.world (Some 3%float) true))
  =
  Submission.emittedKinds
    (Submission.submitModelDirectly
       Submission.Example.automatic
       (Some "operation") (Submission.Example.world (Some 7%float) false)).
Proof.
  eapply (proj2 (emitted_kinds_determined
    Submission.Example.manualServer
    Submission.Example.automatic
    None (Some "operation")
    (Submission.Example.world (Some 3%float) true) (Submission.Example.world (Some 7%float) false)
    eq_refl)).
  - reflexivity.
  - reflexivity.
  - simpl. reflexivity.
  - reflexivity.
  - reflexivity.
  - cbn [Submission.schema_revision Submission.Example.schemaOf Submission.revision
         Submission.root Submission.modelState Submission.Example.world].
    split; intros H; exfalso; revert H; apply not_strictly_zero; reflexivity.
Defined.

(** C8 as stated fails: [submitModel] on a model whose revision is the
    integer 2 ^ 53 leaves the revision at 2 ^ 53, since the binary64 sum
    [9007199254740992 + 1] is [9007199254740992]. *)
Lemma revision_not_incremented_at_2_53 :
  Submission.revision
    (Submission.root
       (Submission.modelState
          (Submission.world
             (Submission.submitModel
                Submission.Example.manualClient
                None (Submission.Example.world (Some 9007199254740992%float) false)))))
  = Some 9007199254740992%float /\
  ~ incrementedByOne 9007199254740992%float
      (default PrimFloat.zero
         (Submission.revision
            (Submission.root
               (Submission.modelState
                  (Submission.world
                     (Submission.submitModel
                        Submission.Example.manualClient
                        None
                        (Submission.Example.world (Some 9007199254740992%float) false))))))).
Proof. split; [reflexivity|]. vm_compute. discriminate. Qed.

(** [model_state_frame] on a run of [submitModel]: revision 4 becomes 5, the
    elements stay. *)
Lemma model_state_frame_example :
  Submission.modelState
    (Submission.world
       (Submission.submitModel
          Submission.Example.manualClient
          None (Submission.Example.world (Some 4%float) false)))
  = Submission.mkModelState (Submission.mkRoot (Some 5%float) ["task1"; "task2"]) tt /\
  Submission.revision
    (Submission.root
       (Submission.modelState
          (Submission.world
             (Submission.submitModel
                Submission.Example.manualClient
                None (Submission.Example.world (Some 4%float) false)))))
  = Some (numberOfZ 5).
Proof.
  pose proof (proj1
    (model_state_frame
       Submission.Example.manualClient
       None (Submission.Example.world (Some 4%float) false))
    (fun r w => eq_refl) (fun w => eq_refl)) as [H1 H2].
  split; [exact H1|].
  exact (H2 4%Z ltac:(lia) ltac:(lia) (or_introl eq_refl)).
Defined.

(** * The further properties on the example bindings *)

(** [typeMapping_overrides_default]: ["edge"] is none of the ten identifiers
    and keeps the class the default mapping gives it. *)
Lemma typeMapping_overrides_default_example :
  Store.map_get (typeMapping WorkflowExample.configuration Store.empty).2
    (typeMapping WorkflowExample.configuration Store.empty).1 "edge" =
  WorkflowExample.defaultMapping !! "edge".
Proof.
  refine (proj1
    (typeMapping_overrides_default WorkflowExample.types
       WorkflowExample.DefaultTypes_EDGE WorkflowExample.getDefaultMapping
       Store.empty [Store.MapObj WorkflowExample.defaultMapping] 0
       WorkflowExample.defaultMapping eq_refl eq_refl) "edge" _).
  cbn. intuition discriminate.
Defined.

(** [typeMapping_table]: the ten identifiers of the example binding are
    pairwise distinct. *)
Lemma typeMapping_table_example :
  map (Store.map_get (typeMapping WorkflowExample.configuration Store.empty).2
         (typeMapping WorkflowExample.configuration Store.empty).1)
      (Workflow.registeredTypeIds WorkflowExample.types) =
    [ Some GLabel; Some GLabel; Some GCompartment; Some GLabel; Some GEdge;
      Some GCompartment; Some ActivityNode; Some TaskNode; Some Category;
      Some GCompartment ].
Proof.
  refine (typeMapping_table WorkflowExample.types
       WorkflowExample.DefaultTypes_EDGE WorkflowExample.getDefaultMapping
       Store.empty [Store.MapObj WorkflowExample.defaultMapping] 0
       WorkflowExample.defaultMapping eq_refl eq_refl _).
  apply (bool_decide_unpack _). vm_compute. exact I.
Defined.

(** [typeMapping_twice_on_shared_map]: two accesses on a store whose object 0
    is the shared default map. *)
Lemma typeMapping_twice_on_shared_map_example :
  typeMapping
    (Workflow.WorkflowDiagramConfiguration WorkflowExample.types
       WorkflowExample.DefaultTypes_EDGE WorkflowExample.sharedDefaultMapping)
    (typeMapping
       (Workflow.WorkflowDiagramConfiguration WorkflowExample.types
          WorkflowExample.DefaultTypes_EDGE WorkflowExample.sharedDefaultMapping)
       WorkflowExample.storeWithSharedMap).2
  =
  typeMapping
    (Workflow.WorkflowDiagramConfiguration WorkflowExample.types
       WorkflowExample.DefaultTypes_EDGE WorkflowExample.sharedDefaultMapping)
    WorkflowExample.storeWithSharedMap.
Proof.
  exact (typeMapping_twice_on_shared_map WorkflowExample.types
    WorkflowExample.DefaultTypes_EDGE WorkflowExample.sharedDefaultMapping
    WorkflowExample.storeWithSharedMap 0 WorkflowExample.defaultMapping
    (fun h' => eq_refl) eq_refl).
Defined.

(** [first_action_ignores_layout]: a handler without layout engine and one
    with server-side layout, from the same state. *)
Lemma first_action_ignores_layout_example :
  head [ Submission.UpdateModelAction (Submission.mkSchema (Some 2%float) ["task1"; "task2"]) true;
         Submission.SetDirtyStateAction true None;
         Submission.SetMarkersAction ["task1"; "task2"] LIVE ]
  = head [ Submission.UpdateModelAction (Submission.mkSchema (Some 2%float) ["task1"; "task2"]) true;
           Submission.SetDirtyStateAction true (Some "save") ]
  /\ head [ Submission.UpdateModelAction (Submission.mkSchema (Some 2%float) ["task1"; "task2"]) true;
            Submission.SetDirtyStateAction true None;
            Submission.SetMarkersAction ["task1"; "task2"] LIVE ] <> None.
Proof.
  exact (first_action_ignores_layout
    Submission.Example.manualServer
    (Submission.Example.handler (Submission.Example.configuration AUTOMATIC false true) true false)
    None (Some "save") (Submission.Example.world (Some 2%float) true) _ _
    eq_refl eq_refl eq_refl eq_refl).
Defined.

(** [direct_submission_after_submitModel]: a first submission (no revision
    yet) followed by a direct submission. *)
Lemma direct_submission_after_submitModel_example :
  exists s rest,
    [ @Submission.UpdateModelAction (list string) string
        (Submission.mkSchema (Some 1%float) ["task1"; "task2"]) true ]
      = Submission.UpdateModelAction s true :: rest /\
    Submission.schema_revision s = Some (numberOfZ 1).
Proof.
  refine (direct_submission_after_submitModel Submission.Example.manualClient
    None None (Submission.Example.world None false) _ _ 0%Z _ _ _ _ _ _ eq_refl eq_refl).
  - lia.
  - lia.
  - right. split; reflexivity.
  - intros r w' w'' s [= _ <-]. reflexivity.
  - intros r w0. reflexivity.
  - intros w0. reflexivity.
Defined.

(** [revision_counts_submissions]: two submissions from revision 4. *)
Lemma revision_counts_submissions_example :
  Submission.revision (Submission.root (Submission.modelState
    (Submission.world
       (Submission.submitModel Submission.Example.manualClient None
          (Submission.Example.world (Some 4%float) false))))) = Some (numberOfZ 5) /\
  Submission.revision (Submission.root (Submission.modelState
    (Submission.world
       (Submission.submitModel Submission.Example.manualClient (Some "operation")
          (Submission.world
             (Submission.submitModel Submission.Example.manualClient None
                (Submission.Example.world (Some 4%float) false))))))) = Some (numberOfZ 6).
Proof.
  refine (proj2 (revision_counts_submissions Submission.Example.manualClient
    None (Some "operation") (Submission.Example.world (Some 4%float) false) 4%Z _ _ _ _)
    _ _ _).
  - intros w'. reflexivity.
  - intros w'. reflexivity.
  - intros r w0. reflexivity.
  - intros w0. reflexivity.
  - lia.
  - lia.
  - left. reflexivity.
Defined.
